(** * The local multi-service supervisor (run.py, run_production_fixed.py)

    A shallow embedding of the orchestration scripts: the port reaper
    [kill_process_on_port], the launcher [start_service_with_retry], the
    readiness waiter [wait_for_service], the teardown [signal_handler] and
    the module-level launch and status loops.

    The scripts are effectful: they read the clock, spawn and signal
    processes, run helper commands and print.  They are embedded in a
    state-and-exception monad over a [state] that holds the clock, what was
    printed, the calls made to the operating system and the global list
    [processes].  What the operating system answers is not decided by the
    scripts; it is supplied by an environment [env] of oracles, and the
    theorems quantify over it. *)

From Stdlib Require Import ZArith List String Ascii Lia Bool DecimalString.
Import ListNotations.
Open Scope string_scope.
Open Scope Z_scope.

Set Implicit Arguments.

(** ** Python values used by the scripts *)

(** [signal.SIGINT], [signal.SIGTERM], [signal.SIGKILL]. *)
Inductive signum := SIGINT | SIGTERM | SIGKILL.

Definition signum_eqb (a b : signum) : bool :=
  match a, b with
  | SIGINT, SIGINT | SIGTERM, SIGTERM | SIGKILL, SIGKILL => true
  | _, _ => false
  end.

(** The exception classes the scripts can meet.  All of them derive from
    [Exception]; [SystemExit] and [KeyboardInterrupt] (below) do not. *)
Inductive exc_class :=
| CalledProcessError      (* subprocess.run(check=True), non-zero status *)
| ProcessLookupError      (* ESRCH *)
| PermissionError         (* EPERM *)
| FileNotFoundError       (* ENOENT *)
| OSError                 (* any other errno *)
| ValueError              (* int() of a non-number *)
| ConnectionError         (* requests.exceptions.ConnectionError *)
| RequestTimeout          (* requests.exceptions.Timeout *)
| OtherException.

(** [issubclass(c, OSError)]: the requests exceptions derive from [IOError]. *)
Definition is_OSError (c : exc_class) : bool :=
  match c with
  | ProcessLookupError | PermissionError | FileNotFoundError | OSError
  | ConnectionError | RequestTimeout => true
  | CalledProcessError | ValueError | OtherException => false
  end.

Definition is_CalledProcessError (c : exc_class) : bool :=
  match c with CalledProcessError => true | _ => false end.

Inductive exn :=
| SystemExit (code : Z)                  (* sys.exit(code) *)
| KeyboardInterrupt
| PyExc (c : exc_class) (msg : string).  (* [msg] is what [{e}] formats to *)

(** [except Exception as e] *)
Definition is_Exception (e : exn) : bool :=
  match e with PyExc _ _ => true | _ => false end.

(** The status with which the interpreter ends when [e] is not caught. *)
Definition exit_status (e : exn) : Z :=
  match e with
  | SystemExit code => code
  | KeyboardInterrupt => 130
  | PyExc _ _ => 1
  end.

(** What a library or system call does: it returns or raises an exception
    of some class deriving from [Exception]. *)
Inductive outcome (A : Type) :=
| Done (a : A)
| Fails (c : exc_class) (msg : string).
Arguments Fails {A} c msg.

Record CompletedProcess := { returncode : Z; cp_stdout : string }.
Record Response := { status_code : Z; body : string }.
(** A [subprocess.Popen] object. *)
Record Popen := { pid : Z }.

(** A service descriptor, one dict of the [services] list. *)
Record service := {
  name : string;
  command : string;
  cwd : string;
  port : Z
}.

(** ** Strings *)

Definition newline : ascii := ascii_of_nat 10.

(** [str(n)] for an int. *)
Definition str (n : Z) : string := NilZero.string_of_int (Z.to_int n).

(** Whitespace as [str.strip()] sees it, in the ASCII range. *)
Definition is_space (c : ascii) : bool :=
  let n := nat_of_ascii c in
  (((9 <=? n) && (n <=? 13)) || ((28 <=? n) && (n <=? 32)))%nat.

Fixpoint lstrip (s : string) : string :=
  match s with
  | EmptyString => EmptyString
  | String c r => if is_space c then lstrip r else s
  end.

Fixpoint rstrip (s : string) : string :=
  match s with
  | EmptyString => EmptyString
  | String c r =>
      match rstrip r with
      | EmptyString => if is_space c then EmptyString else String c EmptyString
      | r' => String c r'
      end
  end.

(** [s.strip()] *)
Definition strip (s : string) : string := rstrip (lstrip s).

(** [s.split(sep)] for a one-character separator: never the empty list. *)
Fixpoint split (sep : ascii) (s : string) : list string :=
  match s with
  | EmptyString => [EmptyString]
  | String c r =>
      if Ascii.eqb c sep then EmptyString :: split sep r
      else match split sep r with
           | h :: t => String c h :: t
           | [] => [String c EmptyString]
           end
  end.

Definition is_digit (c : ascii) : bool :=
  let n := nat_of_ascii c in ((48 <=? n) && (n <=? 57))%nat.

Definition digit_value (c : ascii) : Z := Z.of_nat (nat_of_ascii c) - 48.

(** Decimal digits, with single underscores allowed between two digits. *)
Fixpoint digits (after_digit : bool) (acc : Z) (s : string) : option Z :=
  match s with
  | EmptyString => if after_digit then Some acc else None
  | String c r =>
      if is_digit c then digits true (10 * acc + digit_value c) r
      else if Ascii.eqb c "_" && after_digit then
        match r with
        | String d _ => if is_digit d then digits false acc r else None
        | EmptyString => None
        end
      else None
  end.

(** [int(s)] for a str: [None] stands for [ValueError]. *)
Definition int (s : string) : option Z :=
  match strip s with
  | String "-" r => option_map Z.opp (digits false 0 r)
  | String "+" r => digits false 0 r
  | t => digits false 0 t
  end.

(** ** The state and the environment *)

(** A call that leaves the interpreter. *)
Inductive call :=
| CPathExists (path : string)         (* os.path.exists *)
| CRemove (path : string)             (* os.remove *)
| CRun (argv : list string)           (* subprocess.run *)
| CKill (p : Z) (sig : signum)        (* os.kill *)
| CGetpgid (p : Z)                    (* os.getpgid *)
| CKillpg (pgid : Z) (sig : signum)   (* os.killpg *)
| CPopen (command cwd : string)       (* subprocess.Popen(shell=True) *)
| CPoll (p : Z)                       (* Popen.poll *)
| CCommunicate (p : Z)                (* Popen.communicate *)
| CGet (url : string)                 (* requests.get *)
| CSleep (seconds : Z).               (* time.sleep *)

(** The clock is in milliseconds.  [stdout], [logged] and [trace] grow at
    the head: the most recent line or call comes first. *)
Record state := {
  now : Z;
  stdout : list string;
  logged : list string;
  trace : list call;
  processes : list Popen
}.

(** The answers of the world outside the scripts.  Each oracle sees the
    state at the moment of the call, so an answer may depend on the time
    and on everything done before.  [latency] is how long a call blocks. *)
Record env := {
  latency : call -> state -> N;
  path_exists : string -> state -> bool;
  os_remove : string -> state -> outcome unit;
  subprocess_run : list string -> state -> outcome CompletedProcess;
  os_kill : Z -> signum -> state -> outcome unit;
  os_getpgid : Z -> state -> outcome Z;
  os_killpg : Z -> signum -> state -> outcome unit;
  popen_spawn : string -> string -> state -> outcome Z;
  popen_poll : Z -> state -> option Z;
  popen_communicate : Z -> state -> outcome string;
  requests_get : string -> state -> outcome Response
}.

(** ** The monad *)

Inductive res (A : Type) :=
| Ok (a : A)
| Raise (e : exn).
Arguments Raise {A} e.

Definition M (A : Type) : Type := state -> res A * state.

Definition ret {A} (a : A) : M A := fun s => (Ok a, s).

Definition bind {A B} (m : M A) (k : A -> M B) : M B :=
  fun s => match m s with
           | (Ok a, s') => k a s'
           | (Raise e, s') => (Raise e, s')
           end.

Definition raise {A} (e : exn) : M A := fun s => (Raise e, s).

(** [try: m  except <classes matched by handles>: h e] *)
Definition try_except {A} (m : M A) (handles : exn -> bool) (h : exn -> M A) : M A :=
  fun s => match m s with
           | (Ok a, s') => (Ok a, s')
           | (Raise e, s') => if handles e then h e s' else (Raise e, s')
           end.

Declare Scope py_scope.
Delimit Scope py_scope with py.
Notation "x <- m ;; k" := (bind m (fun x => k))
  (at level 100, m at next level, right associativity) : py_scope.
Notation "m ;; k" := (bind m (fun _ => k))
  (at level 100, right associativity) : py_scope.
Open Scope py_scope.

(** [for x in xs: body x] *)
Fixpoint for_each {A} (xs : list A) (body : A -> M unit) : M unit :=
  match xs with
  | [] => ret tt
  | x :: rest => body x ;; for_each rest body
  end.

Definition sys_exit {A} (code : Z) : M A := raise (SystemExit code).

Definition print (line : string) : M unit :=
  fun s => (Ok tt, {| now := now s; stdout := line :: stdout s; logged := logged s;
                      trace := trace s; processes := processes s |}).

(** [logger.info], [logger.warning], [logger.error] *)
Definition logger (line : string) : M unit :=
  fun s => (Ok tt, {| now := now s; stdout := stdout s; logged := line :: logged s;
                      trace := trace s; processes := processes s |}).

(** [time.time()] *)
Definition time_time : M Z := fun s => (Ok (now s), s).

(** The state once call [c] has taken [ms] milliseconds. *)
Definition after (c : call) (ms : Z) (s : state) : state :=
  {| now := now s + ms; stdout := stdout s; logged := logged s;
     trace := c :: trace s; processes := processes s |}.

(** [time.sleep(seconds)] *)
Definition time_sleep (seconds : Z) : M unit :=
  fun s => (Ok tt, after (CSleep seconds) (1000 * seconds) s).

Definition lift {A} (o : outcome A) : res A :=
  match o with
  | Done a => Ok a
  | Fails c msg => Raise (PyExc c msg)
  end.

Section Calls.
Variable E : env.

(** Call [c], answered by [answer] in the state of the call. *)
Definition perform {A} (c : call) (answer : state -> outcome A) : M A :=
  fun s => (lift (answer s), after c (Z.of_N (latency E c s)) s).

Definition os_path_exists (path : string) : M bool :=
  perform (CPathExists path) (fun s => Done (path_exists E path s)).

Definition remove (path : string) : M unit :=
  perform (CRemove path) (os_remove E path).

(** [subprocess.run(argv, capture_output=True, text=True)] *)
Definition run (argv : list string) : M CompletedProcess :=
  perform (CRun argv) (subprocess_run E argv).

(** [subprocess.run(argv, check=True)] *)
Definition run_check (argv : list string) : M CompletedProcess :=
  cp <- run argv ;;
  if returncode cp =? 0 then ret cp
  else raise (PyExc CalledProcessError
                ("Command returned non-zero exit status " ++ str (returncode cp))).

Definition kill (p : Z) (sig : signum) : M unit :=
  perform (CKill p sig) (os_kill E p sig).

Definition getpgid (p : Z) : M Z :=
  perform (CGetpgid p) (os_getpgid E p).

Definition killpg (pgid : Z) (sig : signum) : M unit :=
  perform (CKillpg pgid sig) (os_killpg E pgid sig).

(** [subprocess.Popen(command, shell=True, preexec_fn=os.setsid, cwd=cwd, ...)] *)
Definition popen (command cwd : string) : M Popen :=
  p <- perform (CPopen command cwd) (popen_spawn E command cwd) ;;
  ret {| pid := p |}.

(** [pro.poll()]: [None] while the process runs, its status afterwards. *)
Definition poll (pro : Popen) : M (option Z) :=
  perform (CPoll (pid pro)) (fun s => Done (popen_poll E (pid pro) s)).

(** [pro.communicate()], the captured output only. *)
Definition communicate (pro : Popen) : M string :=
  perform (CCommunicate (pid pro)) (popen_communicate E (pid pro)).

(** [requests.get(url, timeout=1)] *)
Definition get (url : string) : M Response :=
  perform (CGet url) (requests_get E url).
End Calls.

(** [str(e)] *)
Definition exn_str (e : exn) : string :=
  match e with
  | SystemExit code => str code
  | KeyboardInterrupt => ""%string
  | PyExc _ msg => msg
  end.

Definition nonempty (s : string) : bool :=
  match s with EmptyString => false | String _ _ => true end.

(** [range(n)] *)
Definition range (n : Z) : list Z := map Z.of_nat (seq 0 (Z.to_nat n)).

(** [['lsof', '-ti', f':{port}']] *)
Definition lsof (port : Z) : list string := ["lsof"; "-ti"; ":" ++ str port].

(** [processes.append(pro)] *)
Definition processes_append (pro : Popen) : M unit :=
  fun s => (Ok tt, {| now := now s; stdout := stdout s; logged := logged s;
                      trace := trace s; processes := processes s ++ [pro] |}).

Definition read_processes : M (list Popen) := fun s => (Ok (processes s), s).

(** ** Signals *)

(** What the interpreter does with a signal: the default action of the
    system ([signal.SIG_DFL], which ends the process for the three signals
    here), Python's own [signal.default_int_handler], which raises
    [KeyboardInterrupt], or a handler of the script. *)
Inductive disposition :=
| SIG_DFL
| default_int_handler
| Handler (h : M unit).

(** The dispositions a fresh interpreter starts with. *)
Definition initial_dispositions (sig : signum) : disposition :=
  match sig with
  | SIGINT => default_int_handler
  | SIGTERM | SIGKILL => SIG_DFL
  end.

(** [signal.signal(sig, h)] *)
Definition signal_signal (sig : signum) (h : M unit)
    (table : signum -> disposition) : signum -> disposition :=
  fun sg => if signum_eqb sg sig then Handler h else table sg.

(** How the delivery of a signal ends for the supervisor. *)
Inductive fate :=
| Resumed                  (* the handler returned *)
| Unwinds (e : exn)        (* the handler raised [e] into the main flow *)
| KilledBy (sig : signum). (* ended by the system, no Python code ran *)

Definition deliver (table : signum -> disposition) (sig : signum)
    : state -> fate * state :=
  fun s =>
    match table sig with
    | SIG_DFL => (KilledBy sig, s)
    | default_int_handler => (Unwinds KeyboardInterrupt, s)
    | Handler h =>
        match h s with
        | (Ok _, s') => (Resumed, s')
        | (Raise e, s') => (Unwinds e, s')
        end
    end.

(** How the supervisor process ends, if it does. *)
Inductive ending :=
| ExitsWith (status : Z)
| EndedBy (sig : signum)
| KeepsIdling.

(** ** run.py *)

Module Run.
Section Run.
Variable E : env.

(** The body of the [for pid in pids] loop. *)
Definition kill_pid (port : Z) (pid : string) : M unit :=
  if nonempty pid then
    print ("Killing process " ++ pid ++ " on port " ++ str port) ;;
    match int pid with
    | Some n => kill E n SIGKILL
    | None => raise (PyExc ValueError ("invalid literal for int() with base 10: " ++ pid))
    end
  else ret tt.

(** The body of the [try] of [kill_process_on_port]. *)
Definition find_and_kill (port : Z) : M unit :=
  result <- run E (lsof port) ;;
  let pids := split newline (strip (cp_stdout result)) in
  for_each pids (kill_pid port).

Definition kill_process_on_port (port : Z) : M unit :=
  try_except (find_and_kill port) is_Exception
    (fun e => print ("Error killing process on port " ++ str port ++ ": " ++ exn_str e)).

Definition health_url (port : Z) : string :=
  "http://localhost:" ++ str port ++ "/health".

(** One round of the [try] in [wait_for_service]: [true] stands for the
    [return True] inside it.  The bare [except] catches everything. *)
Definition probe (port : Z) (service_name : string) : M bool :=
  try_except
    (response <- get E (health_url port) ;;
     if status_code response =? 200 then
       print (service_name ++ " is ready on port " ++ str port) ;;
       ret true
     else ret false)
    (fun _ => true)
    (fun _ => ret false).

(** The [while] loop of [wait_for_service], unrolled at most [fuel] times.
    [Some true]: returned [True] from inside; [Some false]: the condition
    failed and the loop ended; [None]: [fuel] tests were not enough. *)
Fixpoint wait_loop (fuel : nat) (port : Z) (service_name : string)
    (timeout start_time : Z) : M (option bool) :=
  match fuel with
  | O => ret None
  | S fuel' =>
      t <- time_time ;;
      if t - start_time <? 1000 * timeout then
        ready <- probe port service_name ;;
        if ready : bool then ret (Some true)
        else time_sleep 1 ;; wait_loop fuel' port service_name timeout start_time
      else ret (Some false)
  end.

Definition wait_for_service_fuel (fuel : nat) (port : Z) (service_name : string)
    (timeout : Z) : M (option bool) :=
  print ("Waiting for " ++ service_name ++ " to be available on port " ++ str port ++ "...") ;;
  start_time <- time_time ;;
  r <- wait_loop fuel port service_name timeout start_time ;;
  match r with
  | Some true => ret (Some true)
  | Some false =>
      print ("Warning: " ++ service_name ++ " did not become available on port "
             ++ str port ++ " within " ++ str timeout ++ " seconds") ;;
      ret (Some false)
  | None => ret None
  end.

(** Every round sleeps a second, so [timeout] rounds and one last test
    are enough (see [wait_for_service_total]). *)
Definition wait_for_service (port : Z) (service_name : string) (timeout : Z)
    : M (option bool) :=
  wait_for_service_fuel (S (Z.to_nat timeout)) port service_name timeout.

(** The body of the [try] in [start_service_with_retry]: [Some pro] stands
    for [return pro]. *)
Definition attempt_start (service : service) (attempt max_retries : Z)
    : M (option Popen) :=
  print ("Starting " ++ name service ++ " service (attempt " ++ str (attempt + 1)
         ++ "/" ++ str max_retries ++ ")...") ;;
  pro <- popen E (command service) (cwd service) ;;
  time_sleep 2 ;;
  status <- poll E pro ;;
  match status with
  | None =>
      print (name service ++ " started successfully") ;;
      ret (Some pro)
  | Some _ =>
      output <- communicate E pro ;;
      print (name service ++ " failed to start. Output: " ++ output) ;;
      ret None
  end.

(** The [for attempt in range(max_retries)] loop over the attempts left. *)
Fixpoint attempts (service : service) (max_retries : Z) (left : list Z)
    : M (option Popen) :=
  match left with
  | [] => ret None
  | attempt :: rest =>
      r <- try_except (attempt_start service attempt max_retries) is_Exception
             (fun e =>
                print ("Error starting " ++ name service ++ " service (attempt "
                       ++ str (attempt + 1) ++ "): " ++ exn_str e) ;;
                ret None) ;;
      match r with
      | Some pro => ret (Some pro)
      | None =>
          (if attempt <? max_retries - 1 then
             print ("Retrying " ++ name service ++ " in 3 seconds...") ;;
             time_sleep 3
           else ret tt) ;;
          attempts service max_retries rest
      end
  end.

Definition start_service_with_retry (service : service) (max_retries : Z)
    : M (option Popen) :=
  r <- attempts service max_retries (range max_retries) ;;
  match r with
  | Some pro => ret (Some pro)
  | None =>
      print ("Failed to start " ++ name service ++ " after " ++ str max_retries
             ++ " attempts") ;;
      ret None
  end.

(** [signal_handler(sig, frame)]; neither argument is used. *)
Definition signal_handler : M unit :=
  print "Stopping servers..." ;;
  ps <- read_processes ;;
  for_each ps (fun p => pgid <- getpgid E (pid p) ;; killpg E pgid SIGTERM) ;;
  sys_exit 0.

(** The body of the loop of [install_python_dependencies]. *)
Definition install_requirements (req_file : string) : M unit :=
  found <- os_path_exists E req_file ;;
  if found : bool then
    print ("Installing dependencies from " ++ req_file ++ "...") ;;
    try_except
      (run_check E ["pip3"; "install"; "-r"; req_file] ;;
       print ("Dependencies from " ++ req_file ++ " installed successfully."))
      (fun e => match e with PyExc c _ => is_CalledProcessError c | _ => false end)
      (fun e =>
         print ("Error installing dependencies from " ++ req_file ++ ": " ++ exn_str e) ;;
         sys_exit 1)
  else print ("Warning: " ++ req_file ++ " not found, skipping...").

Definition install_python_dependencies : M unit :=
  for_each ["journal/requirements.txt"; "forex_data_service/requirements.txt"]
    install_requirements.

Definition build_frontend : M unit :=
  print "Building frontend..." ;;
  try_except
    (run_check E ["npm"; "run"; "build"] ;;
     print "Frontend built successfully.")
    (fun e => match e with PyExc c _ => is_CalledProcessError c | _ => false end)
    (fun e => print ("Error building frontend: " ++ exn_str e) ;; sys_exit 1).

Definition setup_database : M unit :=
  let db_file := "instance/dev.db" in
  found <- os_path_exists E db_file ;;
  (if found : bool then print "Removing old database file..." ;; remove E db_file
   else ret tt) ;;
  print "Creating new database..." ;;
  try_except
    (run_check E ["python3"; "create_db.py"] ;;
     print "Database created successfully.")
    (fun e => match e with PyExc c _ => is_CalledProcessError c | _ => false end)
    (fun e => print ("Error creating database: " ++ exn_str e) ;; sys_exit 1).

(** The ports of the loop "Kill existing services before setting up the
    database". *)
Definition reaped_ports : list Z := [5005; 5007; 5000; 5175].

Definition reap_ports : M unit := for_each reaped_ports kill_process_on_port.

(** The three steps between the reaping and the launches. *)
Definition preflight : M unit :=
  install_python_dependencies ;;
  build_frontend ;;
  setup_database.

(** The body of the loop [for service in services]. *)
Definition launch (service : service) : M unit :=
  pro <- start_service_with_retry service 3 ;;
  match pro with
  | Some pro =>
      processes_append pro ;;
      if existsb (String.eqb (name service)) ["journal_service"] then
        wait_for_service (port service) (name service) 30 ;; ret tt
      else ret tt
  | None =>
      print ("Critical service " ++ name service
             ++ " failed to start. Continuing with other services...")
  end.

Definition launch_all (services : list service) : M unit :=
  for_each services launch.

(** [i < len(processes) and processes[i].poll() is None] *)
Definition running_at (i : nat) : M bool :=
  ps <- read_processes ;;
  match nth_error ps i with
  | Some pro =>
      status <- poll E pro ;;
      ret (match status with None => true | Some _ => false end)
  | None => ret false
  end.

(** The body of the loop [for i, service in enumerate(services)]. *)
Definition report (entry : nat * service) : M unit :=
  let (i, service) := entry in
  up <- running_at i ;;
  if up : bool then print ("  ✓ " ++ name service ++ " - Running")
  else print ("  ✗ " ++ name service ++ " - Not running").

(** [enumerate(l)] counting from [i]. *)
Fixpoint enumerate {A} (i : nat) (l : list A) : list (nat * A) :=
  match l with
  | [] => []
  | x :: rest => (i, x) :: enumerate (S i) rest
  end.

Definition report_status (services : list service) : M unit :=
  print "All services started." ;;
  print "Services status:" ;;
  for_each (enumerate 0 services) report.

(** The module body from the reaping loop to the status lines, over the
    list [services]; the endless [time.sleep(1)] loop that follows is
    left out. *)
Definition supervise (services : list service) : M unit :=
  reap_ports ;;
  preflight ;;
  launch_all services ;;
  report_status services.
End Run.

Definition services : list service := [
  {| name := "journal_service";
     command := "PYTHONPATH=. python3 journal/run_journal.py";
     cwd := "."; port := 5000 |};
  {| name := "forex_data_service";
     command := "python3 forex_data_service/server.py";
     cwd := "."; port := 5010 |};
  {| name := "frontend";
     command := "npm run dev";
     cwd := "."; port := 5175 |};
  {| name := "customer_service";
     command := "node customer-service/server.js";
     cwd := "."; port := 5005 |};
  {| name := "trade_mentor_service";
     command := "node trade_mentor_service/server.js";
     cwd := "."; port := 5008 |}
].

Definition main (E : env) : M unit := supervise E services.

(** [signal.signal(signal.SIGINT, signal_handler)], the only registration. *)
Definition dispositions (E : env) : signum -> disposition :=
  signal_signal SIGINT (signal_handler E) initial_dispositions.

(** The last statement of the script,
    [try: while True: time.sleep(1)  except KeyboardInterrupt: signal_handler(None, None)],
    at the moment the signal [sig] arrives. *)
Definition idle_receives (E : env) (sig : signum) : state -> ending * state :=
  fun s =>
    match deliver (dispositions E) sig s with
    | (Resumed, s') => (KeepsIdling, s')
    | (KilledBy sg, s') => (EndedBy sg, s')
    | (Unwinds KeyboardInterrupt, s') =>
        match signal_handler E s' with
        | (Ok _, s'') => (ExitsWith 0, s'')
        | (Raise e, s'') => (ExitsWith (exit_status e), s'')
        end
    | (Unwinds e, s') => (ExitsWith (exit_status e), s')
    end.
End Run.

(** ** run_production_fixed.py *)

Module RunProductionFixed.
Section RunProductionFixed.
Variable E : env.

(** The [try] around the group kill catches [(ProcessLookupError, OSError)]. *)
Definition kill_group (p : Popen) : M unit :=
  try_except
    (pgid <- getpgid E (pid p) ;; killpg E pgid SIGTERM)
    (fun e => match e with PyExc c _ => is_OSError c | _ => false end)
    (fun _ => ret tt).

Definition signal_handler : M unit :=
  logger "Stopping all services..." ;;
  ps <- read_processes ;;
  for_each ps kill_group ;;
  sys_exit 0.

Definition kill_pid (port : Z) (pid : string) : M unit :=
  if nonempty pid then
    logger ("Killing process " ++ pid ++ " on port " ++ str port) ;;
    match int pid with
    | Some n => kill E n SIGKILL
    | None => raise (PyExc ValueError ("invalid literal for int() with base 10: " ++ pid))
    end
  else ret tt.

Definition find_and_kill (port : Z) : M unit :=
  result <- run E (lsof port) ;;
  let pids := split newline (strip (cp_stdout result)) in
  for_each pids (kill_pid port).

Definition kill_process_on_port (port : Z) : M unit :=
  try_except (find_and_kill port) is_Exception
    (fun e => logger ("Error killing process on port " ++ str port ++ ": " ++ exn_str e)).

(** [ports_to_clear] and the loop over it that ends [setup_environment]. *)
Definition ports_to_clear : list Z := [5000; 5005; 5008; 5010; 5175].

Definition clear_ports : M unit := for_each ports_to_clear kill_process_on_port.

(** [signal.signal(signal.SIGINT, signal_handler)], the only registration. *)
Definition dispositions : signum -> disposition :=
  signal_signal SIGINT signal_handler initial_dispositions.

(** The body of the [try] of [build_frontend]. *)
Definition install_and_build : M unit :=
  found <- os_path_exists E "node_modules" ;;
  (if found : bool then ret tt
   else
     logger "Installing frontend dependencies..." ;;
     run_check E ["npm"; "install"] ;;
     ret tt) ;;
  run_check E ["npm"; "run"; "build"] ;;
  logger "Frontend built successfully." ;;
  built <- os_path_exists E "dist" ;;
  if built : bool then ret tt
  else raise (PyExc OtherException "Build directory 'dist' not found after build").

Definition build_frontend : M unit :=
  logger "Building frontend for production..." ;;
  try_except install_and_build
    (fun e => match e with PyExc c _ => is_CalledProcessError c | _ => false end)
    (fun e => logger ("Error building frontend: " ++ exn_str e) ;; sys_exit 1).
End RunProductionFixed.
End RunProductionFixed.

(** ** Scenarios

    Concrete environments and states on which the statements below are
    exercised. *)

(** The state of a fresh interpreter at time 0. *)
Definition boot : state :=
  {| now := 0; stdout := []; logged := []; trace := []; processes := [] |}.

Definition is_popen (c : call) : bool :=
  match c with CPopen _ _ => true | _ => false end.

(** The number of [call]s in the trace that satisfy [p]. *)
Definition count (p : call -> bool) (s : state) : Z :=
  Z.of_nat (List.length (filter p (trace s))).

Definition is_sleep (seconds : Z) (c : call) : bool :=
  match c with CSleep n => n =? seconds | _ => false end.

(** A world where every command succeeds at once and prints nothing, no
    file exists, every child stays alive in a group of its own and the
    health endpoint answers 200.  The n-th spawn gets the pid 100 + n. *)
Definition quiet : env :=
  {| latency := fun _ _ => 0%N;
     path_exists := fun _ _ => false;
     os_remove := fun _ _ => Done tt;
     subprocess_run := fun _ _ => Done {| returncode := 0; cp_stdout := "" |};
     os_kill := fun _ _ _ => Done tt;
     os_getpgid := fun p _ => Done p;
     os_killpg := fun _ _ _ => Done tt;
     popen_spawn := fun _ _ s => Done (100 + count is_popen s);
     popen_poll := fun _ _ => None;
     popen_communicate := fun _ _ => Done "";
     requests_get := fun _ _ => Done {| status_code := 200; body := "" |} |}.

(** [quiet], but two stale processes, 11 and 22, hold [port] and the
    second belongs to another user. *)
Definition stale_on (port : Z) : env :=
  {| latency := latency quiet;
     path_exists := path_exists quiet;
     os_remove := os_remove quiet;
     subprocess_run := fun argv _ =>
       if list_eq_dec string_dec argv (lsof port)
       then Done {| returncode := 0;
                    cp_stdout := "11" ++ String newline ("22" ++ String newline "") |}
       else Done {| returncode := 0; cp_stdout := "" |};
     os_kill := fun p _ _ =>
       if p =? 22 then Fails PermissionError "[Errno 1] Operation not permitted"
       else Done tt;
     os_getpgid := os_getpgid quiet;
     os_killpg := os_killpg quiet;
     popen_spawn := popen_spawn quiet;
     popen_poll := popen_poll quiet;
     popen_communicate := popen_communicate quiet;
     requests_get := requests_get quiet |}.

(** [quiet], but every spawned process is dead by the end of the settle
    sleep, having printed one line. *)
Definition crashing : env :=
  {| latency := latency quiet;
     path_exists := path_exists quiet;
     os_remove := os_remove quiet;
     subprocess_run := subprocess_run quiet;
     os_kill := os_kill quiet;
     os_getpgid := os_getpgid quiet;
     os_killpg := os_killpg quiet;
     popen_spawn := popen_spawn quiet;
     popen_poll := fun _ _ => Some 1;
     popen_communicate := fun _ _ => Done "Address already in use";
     requests_get := requests_get quiet |}.

(** [quiet], but no process can be spawned. *)
Definition unspawnable : env :=
  {| latency := latency quiet;
     path_exists := path_exists quiet;
     os_remove := os_remove quiet;
     subprocess_run := subprocess_run quiet;
     os_kill := os_kill quiet;
     os_getpgid := os_getpgid quiet;
     os_killpg := os_killpg quiet;
     popen_spawn := fun _ _ _ => Fails OSError "[Errno 12] Cannot allocate memory";
     popen_poll := popen_poll quiet;
     popen_communicate := popen_communicate quiet;
     requests_get := requests_get quiet |}.

Definition frontend : service :=
  {| name := "frontend"; command := "npm run dev"; cwd := "."; port := 5175 |}.

(** [quiet], but the health endpoint answers 204 No Content. *)
Definition no_content : env :=
  {| latency := latency quiet;
     path_exists := path_exists quiet;
     os_remove := os_remove quiet;
     subprocess_run := subprocess_run quiet;
     os_kill := os_kill quiet;
     os_getpgid := os_getpgid quiet;
     os_killpg := os_killpg quiet;
     popen_spawn := popen_spawn quiet;
     popen_poll := popen_poll quiet;
     popen_communicate := popen_communicate quiet;
     requests_get := fun _ _ => Done {| status_code := 204; body := "" |} |}.

(** [quiet], but every request to the health endpoint hangs until its
    one-second timeout. *)
Definition stalled : env :=
  {| latency := fun c _ => match c with CGet _ => 1000%N | _ => 0%N end;
     path_exists := path_exists quiet;
     os_remove := os_remove quiet;
     subprocess_run := subprocess_run quiet;
     os_kill := os_kill quiet;
     os_getpgid := os_getpgid quiet;
     os_killpg := os_killpg quiet;
     popen_spawn := popen_spawn quiet;
     popen_poll := popen_poll quiet;
     popen_communicate := popen_communicate quiet;
     requests_get := fun _ _ => Fails RequestTimeout "Read timed out. (read timeout=1)" |}.

(** [quiet], but the second registered child, pid 101, has exited and has
    been reaped, so that its pid names no process any more. *)
Definition reaped_child : env :=
  {| latency := latency quiet;
     path_exists := path_exists quiet;
     os_remove := os_remove quiet;
     subprocess_run := subprocess_run quiet;
     os_kill := os_kill quiet;
     os_getpgid := fun p _ =>
       if p =? 101 then Fails ProcessLookupError "[Errno 3] No such process"
       else Done p;
     os_killpg := os_killpg quiet;
     popen_spawn := popen_spawn quiet;
     popen_poll := fun p _ => if p =? 101 then Some 1 else None;
     popen_communicate := popen_communicate quiet;
     requests_get := requests_get quiet |}.

(** The supervisor idle with three registered children. *)
Definition three_running : state :=
  {| now := 0; stdout := []; logged := []; trace := [];
     processes := [ {| pid := 100 |}; {| pid := 101 |}; {| pid := 102 |} ] |}.

(** Three descriptors, the first one the critical service. *)
Definition svc_a : service :=
  {| name := "journal_service"; command := "run-a"; cwd := "."; port := 9001 |}.
Definition svc_b : service :=
  {| name := "B"; command := "run-b"; cwd := "."; port := 9002 |}.
Definition svc_c : service :=
  {| name := "C"; command := "run-c"; cwd := "."; port := 9003 |}.

(** [quiet], but the command of [svc_b] exits at once, every time.  The
    processes of [svc_a], [svc_b] and [svc_c] get the pids 1, 2 and 3. *)
Definition b_fails : env :=
  {| latency := latency quiet;
     path_exists := path_exists quiet;
     os_remove := os_remove quiet;
     subprocess_run := subprocess_run quiet;
     os_kill := os_kill quiet;
     os_getpgid := os_getpgid quiet;
     os_killpg := os_killpg quiet;
     popen_spawn := fun command _ _ =>
       Done (if String.eqb command "run-a" then 1
             else if String.eqb command "run-b" then 2 else 3);
     popen_poll := fun p _ => if p =? 2 then Some 1 else None;
     popen_communicate := fun _ _ => Done "run-b: not found";
     requests_get := requests_get quiet |}.

(** [quiet], but the frontend build fails. *)
Definition broken_build : env :=
  {| latency := latency quiet;
     path_exists := path_exists quiet;
     os_remove := os_remove quiet;
     subprocess_run := fun argv _ =>
       if list_eq_dec string_dec argv ["npm"; "run"; "build"]
       then Done {| returncode := 1; cp_stdout := "" |}
       else Done {| returncode := 0; cp_stdout := "" |};
     os_kill := os_kill quiet;
     os_getpgid := os_getpgid quiet;
     os_killpg := os_killpg quiet;
     popen_spawn := popen_spawn quiet;
     popen_poll := popen_poll quiet;
     popen_communicate := popen_communicate quiet;
     requests_get := requests_get quiet |}.

(** The calls with which a teardown signals the group of each handle. *)
Definition group_kills (pgid_of : Z -> Z) (ps : list Popen) : list call :=
  flat_map (fun p => [CGetpgid (pid p); CKillpg (pgid_of (pid p)) SIGTERM]) ps.

(** The command [argv] never succeeds: it ends with a non-zero status or
    cannot be run at all. *)
Definition collaborator_fails (E : env) (argv : list string) : Prop :=
  forall w, match subprocess_run E argv w with
            | Done cp => returncode cp <> 0
            | Fails _ _ => True
            end.

(** One of the three pre-flight steps fails: the installation from a
    requirements file that exists, the frontend build, or the creation of
    the database. *)
Definition preflight_fails (E : env) : Prop :=
  (exists req_file,
      In req_file ["journal/requirements.txt"; "forex_data_service/requirements.txt"] /\
      (forall w, path_exists E req_file w = true) /\
      collaborator_fails E ["pip3"; "install"; "-r"; req_file]) \/
  collaborator_fails E ["npm"; "run"; "build"] \/
  collaborator_fails E ["python3"; "create_db.py"].

(** ** Further scenarios and measures *)

Definition is_get (c : call) : bool :=
  match c with CGet _ => true | _ => false end.

Definition is_run (c : call) : bool :=
  match c with CRun _ => true | _ => false end.

Definition is_kill (c : call) : bool :=
  match c with CKill _ _ => true | _ => false end.

Definition is_getpgid (c : call) : bool :=
  match c with CGetpgid _ => true | _ => false end.

(** The numbers on the non-empty lines among [lines]. *)
Definition numbers (lines : list string) : list Z :=
  flat_map (fun line => match int line with Some n => [n] | None => [] end)
    (filter nonempty lines).

(** The PIDs that lsof printed on [out], one per line. *)
Definition listed_pids (out : string) : list Z :=
  numbers (split newline (strip out)).

(** The line printed before the kill of the PID written [pid]. *)
Definition kill_notice (port : Z) (pid : string) : string :=
  "Killing process " ++ pid ++ " on port " ++ str port.

(** The two status lines of the report. *)
Definition status_line (up : bool) (svc : service) : string :=
  if up then "  ✓ " ++ name svc ++ " - Running"
  else "  ✗ " ++ name svc ++ " - Not running".

(** Whether [ps] has an [i]-th handle and its process is alive. *)
Definition registered_up (alive : Z -> bool) (ps : list Popen) (i : nat) : bool :=
  match nth_error ps i with
  | Some pro => alive (pid pro)
  | None => false
  end.

(** [quiet], but two stale processes, 11 and 22, hold [port]; both can be
    killed. *)
Definition held_on (port : Z) : env :=
  {| latency := latency quiet;
     path_exists := path_exists quiet;
     os_remove := os_remove quiet;
     subprocess_run := fun argv _ =>
       if list_eq_dec string_dec argv (lsof port)
       then Done {| returncode := 0;
                    cp_stdout := "11" ++ String newline ("22" ++ String newline "") |}
       else Done {| returncode := 0; cp_stdout := "" |};
     os_kill := os_kill quiet;
     os_getpgid := os_getpgid quiet;
     os_killpg := os_killpg quiet;
     popen_spawn := popen_spawn quiet;
     popen_poll := popen_poll quiet;
     popen_communicate := popen_communicate quiet;
     requests_get := requests_get quiet |}.

(** [quiet], but the old database file exists and cannot be removed. *)
Definition locked_db : env :=
  {| latency := latency quiet;
     path_exists := fun path _ => String.eqb path "instance/dev.db";
     os_remove := fun _ _ => Fails PermissionError "[Errno 13] Permission denied";
     subprocess_run := subprocess_run quiet;
     os_kill := os_kill quiet;
     os_getpgid := os_getpgid quiet;
     os_killpg := os_killpg quiet;
     popen_spawn := popen_spawn quiet;
     popen_poll := popen_poll quiet;
     popen_communicate := popen_communicate quiet;
     requests_get := requests_get quiet |}.

(** [quiet], but [node_modules] is there and the build leaves no [dist]. *)
Definition no_dist : env :=
  {| latency := latency quiet;
     path_exists := fun path _ => String.eqb path "node_modules";
     os_remove := os_remove quiet;
     subprocess_run := subprocess_run quiet;
     os_kill := os_kill quiet;
     os_getpgid := os_getpgid quiet;
     os_killpg := os_killpg quiet;
     popen_spawn := popen_spawn quiet;
     popen_poll := popen_poll quiet;
     popen_communicate := popen_communicate quiet;
     requests_get := requests_get quiet |}.

(** ** Predicates on computations *)

(** [ordinary m]: whatever [m] raises derives from [Exception], so an
    [except Exception] around [m] lets nothing through. *)

Definition ordinary {A} (m : M A) : Prop :=
  forall s e s1, m s = (Raise e, s1) -> is_Exception e = true.

(** [s'] comes after [s]: its trace is the one of [s] with calls in [P] added. *)
Definition extends (P : call -> Prop) (s s' : state) : Prop :=
  exists l, trace s' = (l ++ trace s)%list /\ Forall P l.

(** [m] makes calls in [P] only. *)
Definition emits {A} (P : call -> Prop) (m : M A) : Prop :=
  forall s, extends P s (snd (m s)).

(** [m] always makes the call [c]. *)
Definition calls {A} (c : call) (m : M A) : Prop :=
  forall s, In c (trace (snd (m s))).

(** Whatever [m] raises ends the interpreter with status 1. *)
Definition aborting {A} (m : M A) : Prop :=
  forall s e s1, m s = (Raise e, s1) -> exit_status e = 1.

(** [m] does not get through. *)
Definition fails {A} (m : M A) : Prop :=
  forall s, exists e s1, m s = (Raise e, s1).

(** [m] leaves the list [processes] as it is. *)
Definition keeps_registry {A} (m : M A) : Prop :=
  forall s, processes (snd (m s)) = processes s.

(** The line printed when the reaping of [port] fails. *)
Definition reap_error (port : Z) (msg : string) : string :=
  "Error killing process on port " ++ str port ++ ": " ++ msg.

(** * Properties *)

(** ** Stepping through the monad *)

Lemma bind_ok {A B} (m : M A) (k : A -> M B) s a s1 :
  m s = (Ok a, s1) -> bind m k s = k a s1.
Proof. intros H. unfold bind. now rewrite H. Qed.

Lemma bind_raise {A B} (m : M A) (k : A -> M B) s e s1 :
  m s = (Raise e, s1) -> bind m k s = (Raise e, s1).
Proof. intros H. unfold bind. now rewrite H. Qed.

Lemma try_ok {A} (m : M A) handles h s a s1 :
  m s = (Ok a, s1) -> try_except m handles h s = (Ok a, s1).
Proof. intros H. unfold try_except. now rewrite H. Qed.

Lemma try_caught {A} (m : M A) handles h s e s1 :
  m s = (Raise e, s1) -> handles e = true -> try_except m handles h s = h e s1.
Proof. intros H He. unfold try_except. now rewrite H, He. Qed.

Lemma for_each_app {A} (l1 l2 : list A) (body : A -> M unit) s :
  for_each (l1 ++ l2) body s =
  match for_each l1 body s with
  | (Ok _, s1) => for_each l2 body s1
  | (Raise e, s1) => (Raise e, s1)
  end.
Proof.
  revert s. induction l1 as [|x l1 IH]; intros s; simpl.
  - reflexivity.
  - unfold bind. destruct (body x s) as [[[]|e] s1]; [apply IH | reflexivity].
Qed.

(** ** Only exceptions deriving from [Exception] *)

Lemma ordinary_ret {A} (a : A) : ordinary (ret a).
Proof. intros s e s1 H. discriminate H. Qed.

Lemma ordinary_bind {A B} (m : M A) (k : A -> M B) :
  ordinary m -> (forall a, ordinary (k a)) -> ordinary (bind m k).
Proof.
  intros Hm Hk s e s2. unfold bind.
  destruct (m s) as [[a|e1] s1] eqn:Hms.
  - apply Hk.
  - intros H. injection H as <- <-. eapply Hm, Hms.
Qed.

Lemma ordinary_perform {A} E c (answer : state -> outcome A) :
  ordinary (perform E c answer).
Proof.
  intros s e s1. unfold perform. destruct (answer s); simpl; intros H.
  - discriminate H.
  - now injection H as <- <-.
Qed.

Lemma ordinary_print line : ordinary (print line).
Proof. intros s e s1 H. discriminate H. Qed.

Lemma ordinary_logger line : ordinary (logger line).
Proof. intros s e s1 H. discriminate H. Qed.

Lemma ordinary_sleep n : ordinary (time_sleep n).
Proof. intros s e s1 H. discriminate H. Qed.

Lemma ordinary_raise {A} c msg : ordinary (@raise A (PyExc c msg)).
Proof. intros s e s1 H. now injection H as <- <-. Qed.

Lemma ordinary_for_each {A} (l : list A) (body : A -> M unit) :
  (forall x, ordinary (body x)) -> ordinary (for_each l body).
Proof.
  intros Hb. induction l as [|x l IH]; simpl.
  - apply ordinary_ret.
  - apply ordinary_bind; auto.
Qed.

Create HintDb ordinary.
#[local] Hint Resolve ordinary_ret ordinary_perform ordinary_print ordinary_logger
  ordinary_sleep ordinary_raise : ordinary.

Ltac solve_ordinary :=
  repeat first
    [ apply ordinary_bind; [| intros ?]
    | solve [auto with ordinary]
    | match goal with
      | |- ordinary (match ?x with _ => _ end) => destruct x
      | |- ordinary (if ?x then _ else _) => destruct x
      end ].

(** An [except Exception] whose handler returns lets [m] end normally. *)
Lemma try_except_Exception_returns {A} (m : M A) (h : exn -> M A) :
  ordinary m ->
  (forall e s, exists a s1, h e s = (Ok a, s1)) ->
  forall s, exists a s1, try_except m is_Exception h s = (Ok a, s1).
Proof.
  intros Hm Hh s. unfold try_except.
  destruct (m s) as [[a|e] s1] eqn:Hms.
  - now exists a, s1.
  - rewrite (Hm _ _ _ Hms). apply Hh.
Qed.

(** ** The port reaper *)

Lemma ordinary_kill_pid E port pid : ordinary (Run.kill_pid E port pid).
Proof.
  unfold Run.kill_pid. destruct (nonempty pid); auto with ordinary.
  apply ordinary_bind; auto with ordinary. intros _.
  destruct (int pid); unfold kill; auto with ordinary.
Qed.

Lemma ordinary_find_and_kill E port : ordinary (Run.find_and_kill E port).
Proof.
  unfold Run.find_and_kill. apply ordinary_bind.
  - unfold run. auto with ordinary.
  - intros cp. apply ordinary_for_each. apply ordinary_kill_pid.
Qed.

Lemma ordinary_fixed_find_and_kill E port :
  ordinary (RunProductionFixed.find_and_kill E port).
Proof.
  unfold RunProductionFixed.find_and_kill. apply ordinary_bind.
  - unfold run. auto with ordinary.
  - intros cp. apply ordinary_for_each. intros pid.
    unfold RunProductionFixed.kill_pid. destruct (nonempty pid); auto with ordinary.
    apply ordinary_bind; auto with ordinary. intros _.
    destruct (int pid); unfold kill; auto with ordinary.
Qed.

Lemma kill_process_on_port_returns E port s :
  exists s1, Run.kill_process_on_port E port s = (Ok tt, s1).
Proof.
  destruct (try_except_Exception_returns (m := Run.find_and_kill E port)
    (fun e => print ("Error killing process on port " ++ str port ++ ": " ++ exn_str e))
    (ordinary_find_and_kill E port)) with (s := s) as ([] & s1 & H).
  - intros e s0. eexists tt, _. reflexivity.
  - now exists s1.
Qed.

Lemma fixed_kill_process_on_port_returns E port s :
  exists s1, RunProductionFixed.kill_process_on_port E port s = (Ok tt, s1).
Proof.
  destruct (try_except_Exception_returns (m := RunProductionFixed.find_and_kill E port)
    (fun e => logger ("Error killing process on port " ++ str port ++ ": " ++ exn_str e))
    (ordinary_fixed_find_and_kill E port)) with (s := s) as ([] & s1 & H).
  - intros e s0. eexists tt, _. reflexivity.
  - now exists s1.
Qed.

(** C9.  [kill_process_on_port] never raises, in run.py and in
    run_production_fixed.py alike.  In run.py: when lsof lists no PID the
    call does nothing beyond the lookup; when the lookup fails, or when the
    kill of a found PID fails after the PIDs before it were dealt with, the
    error is printed and the call still returns. *)
Theorem kill_process_on_port_never_raises (E : env) (port : Z) (s : state) :
  exists s',
    Run.kill_process_on_port E port s = (Ok tt, s') /\
    (exists s'', RunProductionFixed.kill_process_on_port E port s = (Ok tt, s'')) /\
    let looked := after (CRun (lsof port)) (Z.of_N (latency E (CRun (lsof port)) s)) s in
    (forall cp,
        subprocess_run E (lsof port) s = Done cp ->
        strip (cp_stdout cp) = "" ->
        s' = looked) /\
    (forall c msg,
        subprocess_run E (lsof port) s = Fails c msg ->
        stdout s' = reap_error port msg :: stdout s) /\
    (forall cp before pid rest n c msg s1,
        subprocess_run E (lsof port) s = Done cp ->
        split newline (strip (cp_stdout cp)) = (before ++ pid :: rest)%list ->
        for_each before (Run.kill_pid E port) looked = (Ok tt, s1) ->
        nonempty pid = true ->
        int pid = Some n ->
        os_kill E n SIGKILL
          (snd (print ("Killing process " ++ pid ++ " on port " ++ str port) s1))
          = Fails c msg ->
        stdout s' = reap_error port msg
                    :: ("Killing process " ++ pid ++ " on port " ++ str port)
                    :: stdout s1).
Proof.
  destruct (kill_process_on_port_returns E port s) as [s' Hs'].
  exists s'. split; [exact Hs'|]. split; [apply fixed_kill_process_on_port_returns|].
  intros looked.
  assert (Hrun : forall cp, subprocess_run E (lsof port) s = Done cp ->
            run E (lsof port) s = (Ok cp, looked)).
  { intros cp H. unfold run, perform. now rewrite H. }
  unfold Run.kill_process_on_port in Hs'.
  split; [|split].
  - intros cp Hcp Hnone.
    assert (H : Run.find_and_kill E port s = (Ok tt, looked)).
    { unfold Run.find_and_kill. erewrite bind_ok by (apply Hrun, Hcp).
      rewrite Hnone. reflexivity. }
    erewrite try_ok in Hs' by exact H. congruence.
  - intros c msg Hfail.
    assert (H : Run.find_and_kill E port s = (Raise (PyExc c msg), looked)).
    { unfold Run.find_and_kill. apply bind_raise.
      unfold run, perform. rewrite Hfail. reflexivity. }
    erewrite try_caught in Hs' by (exact H || reflexivity).
    injection Hs' as <-. reflexivity.
  - intros cp before pid rest n c msg s1 Hcp Hsplit Hbefore Hne Hint Hkill.
    set (line := "Killing process " ++ pid ++ " on port " ++ str port) in *.
    assert (H : Run.find_and_kill E port s =
                (Raise (PyExc c msg),
                 after (CKill n SIGKILL)
                   (Z.of_N (latency E (CKill n SIGKILL) (snd (print line s1))))
                   (snd (print line s1)))).
    { unfold Run.find_and_kill. erewrite bind_ok by (apply Hrun, Hcp).
      rewrite Hsplit, for_each_app, Hbefore. simpl.
      apply bind_raise. unfold Run.kill_pid. rewrite Hne, Hint. fold line.
      unfold bind, kill, perform, print in *. simpl in *.
      rewrite Hkill. reflexivity. }
    erewrite try_caught in Hs' by (exact H || reflexivity).
    injection Hs' as <-. reflexivity.
Qed.

Lemma kill_process_on_port_never_raises_witness :
  exists s',
    Run.kill_process_on_port (stale_on 5000) 5000 boot = (Ok tt, s') /\
    stdout s' = [ reap_error 5000 "[Errno 1] Operation not permitted";
                  "Killing process 22 on port 5000";
                  "Killing process 11 on port 5000" ].
Proof.
  destruct (kill_process_on_port_never_raises (stale_on 5000) 5000 boot)
    as (s' & Hs' & _ & _ & _ & Hkill).
  exists s'. split; [exact Hs'|].
  apply (Hkill {| returncode := 0;
                  cp_stdout := "11" ++ String newline ("22" ++ String newline "") |}
               ["11"] "22" [] 22 PermissionError "[Errno 1] Operation not permitted"
               (after (CKill 11 SIGKILL) 0
                  (snd (print "Killing process 11 on port 5000"
                          (after (CRun (lsof 5000)) 0 boot)))));
    reflexivity.
Defined.

(** ** The launcher *)

Lemma ordinary_attempt_start E svc attempt max_retries :
  ordinary (Run.attempt_start E svc attempt max_retries).
Proof.
  unfold Run.attempt_start, popen, poll, communicate. solve_ordinary.
Qed.

(** The [try] of one attempt always ends normally. *)
Lemma guarded_attempt_returns E svc attempt max_retries s :
  exists r s1,
    try_except (Run.attempt_start E svc attempt max_retries) is_Exception
      (fun e =>
         print ("Error starting " ++ name svc ++ " service (attempt "
                ++ str (attempt + 1) ++ "): " ++ exn_str e) ;;
         ret None) s = (Ok r, s1).
Proof.
  apply try_except_Exception_returns.
  - apply ordinary_attempt_start.
  - intros e s0. eexists None, _. reflexivity.
Qed.

Lemma attempts_returns E svc max_retries left s :
  exists r s1, Run.attempts E svc max_retries left s = (Ok r, s1).
Proof.
  revert s. induction left as [|attempt rest IH]; intros s; simpl.
  - now exists None, s.
  - destruct (guarded_attempt_returns E svc attempt max_retries s) as (r & s1 & H).
    erewrite bind_ok by exact H.
    destruct r as [pro|].
    + now exists (Some pro), s1.
    + destruct (attempt <? max_retries - 1).
      * erewrite bind_ok by reflexivity. apply IH.
      * erewrite bind_ok by reflexivity. apply IH.
Qed.

Lemma start_service_with_retry_returns E svc max_retries s :
  exists r s1, Run.start_service_with_retry E svc max_retries s = (Ok r, s1).
Proof.
  unfold Run.start_service_with_retry.
  destruct (attempts_returns E svc max_retries (range max_retries) s) as (r & s1 & H).
  erewrite bind_ok by exact H.
  destruct r as [pro|].
  - now exists (Some pro), s1.
  - eexists None, _. reflexivity.
Qed.

(** How many attempts of [left] are followed by the three-second sleep. *)
Lemma backoffs_of_seq (k : Z) (n i : nat) :
  Z.of_nat (List.length (filter (fun a => a <? k) (map Z.of_nat (seq i n))))
  = Z.max 0 (Z.min (Z.of_nat (i + n)) k - Z.of_nat i).
Proof.
  revert i. induction n as [|n IH]; intros i; cbn [seq map filter].
  - cbn [List.length]. lia.
  - destruct (Z.ltb_spec (Z.of_nat i) k); cbn [List.length];
      rewrite ?Nat2Z.inj_succ, IH; lia.
Qed.

Lemma backoffs_of_range (N : Z) :
  0 <= N ->
  Z.of_nat (List.length (filter (fun a => a <? N - 1) (range N))) = Z.max 0 (N - 1).
Proof.
  intros HN. unfold range. rewrite backoffs_of_seq. lia.
Qed.

Lemma length_range (N : Z) : 0 <= N -> Z.of_nat (List.length (range N)) = N.
Proof.
  intros HN. unfold range. rewrite length_map, length_seq. lia.
Qed.

Lemma last_range (N d : Z) : 0 < N -> last (range N) d = N - 1.
Proof.
  intros HN. unfold range.
  replace (Z.to_nat N) with (S (Z.to_nat (N - 1))) by lia.
  rewrite seq_S, map_app. simpl. rewrite last_last. lia.
Qed.

(** One turn of the loop when the spawned process is dead after the settle
    sleep: the loop goes on with the attempts left, from a state [s2] at
    least two seconds later, five when a backoff follows. *)
Lemma attempts_crashed_step E svc N attempt rest s :
  (forall w, exists p, popen_spawn E (command svc) (cwd svc) w = Done p) ->
  (forall p w, popen_poll E p w <> None) ->
  exists p s2,
    Run.attempts E svc N (attempt :: rest) s = Run.attempts E svc N rest s2 /\
    trace s2 = ((if attempt <? N - 1 then [CSleep 3] else [])
                ++ [CCommunicate p; CPoll p; CSleep 2;
                    CPopen (command svc) (cwd svc)] ++ trace s)%list /\
    now s + 2000 + (if attempt <? N - 1 then 3000 else 0) <= now s2.
Proof.
  intros Hspawn Hdead. cbn [Run.attempts].
  unfold try_except, Run.attempt_start, popen, poll, communicate, perform, bind,
    print, time_sleep, ret. cbn [now stdout logged trace processes after].
  match goal with |- context [popen_spawn E _ _ ?w] =>
    destruct (Hspawn w) as [p Hp]; rewrite Hp end.
  cbn [lift pid now stdout logged trace processes after].
  match goal with |- context [popen_poll E p ?w] =>
    destruct (popen_poll E p w) as [code|] eqn:Hpoll; [|now apply Hdead in Hpoll] end.
  cbn [lift pid].
  match goal with |- context [popen_communicate E p ?w] =>
    destruct (popen_communicate E p w) end;
    cbn [lift is_Exception now stdout logged trace processes after];
    exists p; destruct (attempt <? N - 1);
    (eexists; split; [reflexivity|]);
    cbn [now stdout logged trace processes after app]; split; try reflexivity; lia.
Qed.

(** One turn of the loop when the spawn itself raises. *)
Lemma attempts_unspawnable_step E svc N attempt rest s :
  (forall w, exists c msg, popen_spawn E (command svc) (cwd svc) w = Fails c msg) ->
  exists s2,
    Run.attempts E svc N (attempt :: rest) s = Run.attempts E svc N rest s2 /\
    trace s2 = ((if attempt <? N - 1 then [CSleep 3] else [])
                ++ [CPopen (command svc) (cwd svc)] ++ trace s)%list /\
    now s + (if attempt <? N - 1 then 3000 else 0) <= now s2.
Proof.
  intros Hspawn. cbn [Run.attempts].
  unfold try_except, Run.attempt_start, popen, perform, bind, print, time_sleep, ret.
  cbn [now stdout logged trace processes after].
  match goal with |- context [popen_spawn E _ _ ?w] =>
    destruct (Hspawn w) as (c & msg & Hp); rewrite Hp end.
  cbn [lift is_Exception now stdout logged trace processes after].
  destruct (attempt <? N - 1);
    (eexists; split; [reflexivity|]);
    cbn [now stdout logged trace processes after app]; split; try reflexivity; lia.
Qed.

Lemma count_app (p : call -> bool) (l : list call) (s s' : state) :
  trace s' = (l ++ trace s)%list ->
  count p s' = count p s + Z.of_nat (List.length (filter p l)).
Proof.
  intros H. unfold count. rewrite H, filter_app, length_app. lia.
Qed.

Lemma attempts_crashed E svc N left s :
  (forall w, exists p, popen_spawn E (command svc) (cwd svc) w = Done p) ->
  (forall p w, popen_poll E p w <> None) ->
  exists s',
    Run.attempts E svc N left s = (Ok None, s') /\
    count is_popen s' = count is_popen s + Z.of_nat (List.length left) /\
    count (is_sleep 2) s' = count (is_sleep 2) s + Z.of_nat (List.length left) /\
    count (is_sleep 3) s' = count (is_sleep 3) s
      + Z.of_nat (List.length (filter (fun a => a <? N - 1) left)) /\
    now s + 2000 * Z.of_nat (List.length left)
      + 3000 * Z.of_nat (List.length (filter (fun a => a <? N - 1) left)) <= now s' /\
    (forall d, left <> [] -> (last left d <? N - 1) = false ->
       exists p, hd_error (trace s') = Some (CCommunicate p)).
Proof.
  intros Hspawn Hdead. revert s.
  induction left as [|attempt rest IH]; intros s.
  - exists s. cbn [Run.attempts List.length filter]. repeat split; try lia.
    intros d H. now destruct H.
  - destruct (attempts_crashed_step E svc N attempt rest s Hspawn Hdead)
      as (p & s2 & Heq & Ht & Hn).
    destruct (IH s2) as (s' & Hs' & Hp & Hs2 & Hs3 & Hnow & Hhd).
    exists s'. rewrite Heq. split; [exact Hs'|].
    rewrite app_assoc in Ht.
    rewrite (@count_app is_popen _ _ _ Ht) in Hp.
    rewrite (@count_app (is_sleep 2) _ _ _ Ht) in Hs2.
    rewrite (@count_app (is_sleep 3) _ _ _ Ht) in Hs3.
    cbn [filter List.length].
    repeat split.
    + destruct (attempt <? N - 1); cbn in Hp; lia.
    + destruct (attempt <? N - 1); cbn in Hs2; lia.
    + destruct (attempt <? N - 1); cbn in Hs3; cbn [List.length]; lia.
    + destruct (attempt <? N - 1); cbn [List.length]; lia.
    + intros d _ Hlast. destruct rest as [|a2 rest].
      * cbn [last] in Hlast. rewrite Hlast in Ht.
        cbn [Run.attempts] in Hs'. injection Hs' as <-.
        exists p. now rewrite Ht.
      * apply (Hhd d); [discriminate | exact Hlast].
Qed.

Lemma attempts_unspawnable E svc N left s :
  (forall w, exists c msg, popen_spawn E (command svc) (cwd svc) w = Fails c msg) ->
  exists s',
    Run.attempts E svc N left s = (Ok None, s') /\
    count is_popen s' = count is_popen s + Z.of_nat (List.length left) /\
    count (is_sleep 2) s' = count (is_sleep 2) s /\
    count (is_sleep 3) s' = count (is_sleep 3) s
      + Z.of_nat (List.length (filter (fun a => a <? N - 1) left)).
Proof.
  intros Hspawn. revert s.
  induction left as [|attempt rest IH]; intros s.
  - exists s. cbn [Run.attempts List.length filter]. repeat split; lia.
  - destruct (attempts_unspawnable_step E svc N attempt rest s Hspawn)
      as (s2 & Heq & Ht & Hn).
    destruct (IH s2) as (s' & Hs' & Hp & Hs2 & Hs3).
    exists s'. rewrite Heq. split; [exact Hs'|].
    rewrite app_assoc in Ht.
    rewrite (@count_app is_popen _ _ _ Ht) in Hp.
    rewrite (@count_app (is_sleep 2) _ _ _ Ht) in Hs2.
    rewrite (@count_app (is_sleep 3) _ _ _ Ht) in Hs3.
    cbn [filter List.length].
    repeat split.
    + destruct (attempt <? N - 1); cbn in Hp; lia.
    + destruct (attempt <? N - 1); cbn in Hs2; lia.
    + destruct (attempt <? N - 1); cbn in Hs3; cbn [List.length]; lia.
Qed.

(** C7.  With [max_retries = N] and a command whose process is always dead
    at the end of the settle sleep, [start_service_with_retry] spawns
    exactly N times and returns [None].  It sleeps the two settle seconds N
    times and the three backoff seconds N - 1 times, none of them after the
    last attempt, whose [communicate] is the last call made; so at least
    N * (settle + backoff) - backoff has elapsed (in milliseconds). *)
Theorem launch_exhausts_attempts (E : env) (svc : service) (N : Z) (s : state) :
  0 <= N ->
  (forall w, exists p, popen_spawn E (command svc) (cwd svc) w = Done p) ->
  (forall p w, popen_poll E p w <> None) ->
  exists s',
    Run.start_service_with_retry E svc N s = (Ok None, s') /\
    count is_popen s' = count is_popen s + N /\
    count (is_sleep 2) s' = count (is_sleep 2) s + N /\
    count (is_sleep 3) s' = count (is_sleep 3) s + Z.max 0 (N - 1) /\
    (0 < N -> exists p, hd_error (trace s') = Some (CCommunicate p)) /\
    N * (2000 + 3000) - 3000 <= now s' - now s.
Proof.
  intros HN Hspawn Hdead.
  destruct (attempts_crashed E svc N (range N) s Hspawn Hdead)
    as (s1 & Hs1 & Hp & Hs2 & Hs3 & Hnow & Hhd).
  rewrite length_range in * by exact HN.
  rewrite backoffs_of_range in * by exact HN.
  unfold Run.start_service_with_retry.
  erewrite bind_ok by exact Hs1.
  eexists. split; [reflexivity|].
  unfold count in *. cbn [print bind ret snd trace now].
  repeat split; try assumption; try lia.
  intros Hpos. apply (Hhd 0).
  - unfold range. replace (Z.to_nat N) with (S (Z.to_nat (N - 1))) by lia.
    discriminate.
  - rewrite last_range by exact Hpos. apply Z.ltb_irrefl.
Qed.

Lemma launch_exhausts_attempts_witness :
  exists s',
    Run.start_service_with_retry crashing frontend 3 boot = (Ok None, s') /\
    count is_popen s' = count is_popen boot + 3 /\
    count (is_sleep 2) s' = count (is_sleep 2) boot + 3 /\
    count (is_sleep 3) s' = count (is_sleep 3) boot + Z.max 0 (3 - 1) /\
    (0 < 3 -> exists p, hd_error (trace s') = Some (CCommunicate p)) /\
    3 * (2000 + 3000) - 3000 <= now s' - now boot.
Proof.
  apply (launch_exhausts_attempts crashing frontend (N := 3) boot).
  - lia.
  - intros w. eexists. reflexivity.
  - intros p w. discriminate.
Defined.

(** C10.  [start_service_with_retry] never raises.  When the spawn itself
    raises, each attempt is still counted: N spawns are tried, the backoff
    is slept N - 1 times as after a crashed start, the settle sleep is
    skipped, and the result is [None]. *)
Theorem launcher_never_raises (E : env) (svc : service) (N : Z) (s : state) :
  (exists r s', Run.start_service_with_retry E svc N s = (Ok r, s')) /\
  (0 <= N ->
   (forall w, exists c msg, popen_spawn E (command svc) (cwd svc) w = Fails c msg) ->
   exists s',
     Run.start_service_with_retry E svc N s = (Ok None, s') /\
     count is_popen s' = count is_popen s + N /\
     count (is_sleep 3) s' = count (is_sleep 3) s + Z.max 0 (N - 1) /\
     count (is_sleep 2) s' = count (is_sleep 2) s).
Proof.
  split; [apply start_service_with_retry_returns|].
  intros HN Hspawn.
  destruct (attempts_unspawnable E svc N (range N) s Hspawn)
    as (s1 & Hs1 & Hp & Hs2 & Hs3).
  rewrite length_range in * by exact HN.
  rewrite backoffs_of_range in * by exact HN.
  unfold Run.start_service_with_retry.
  erewrite bind_ok by exact Hs1.
  eexists. split; [reflexivity|].
  unfold count in *. cbn [print bind ret snd trace now].
  repeat split; assumption.
Qed.

Lemma launcher_never_raises_witness :
  exists s',
    Run.start_service_with_retry unspawnable frontend 3 boot = (Ok None, s') /\
    count is_popen s' = count is_popen boot + 3 /\
    count (is_sleep 3) s' = count (is_sleep 3) boot + Z.max 0 (3 - 1) /\
    count (is_sleep 2) s' = count (is_sleep 2) boot.
Proof.
  apply (launcher_never_raises unspawnable frontend 3 boot).
  - lia.
  - intros w. eexists _, _. reflexivity.
Defined.

(** ** The readiness waiter *)

(** One probe: the request is made, and only a response whose status is
    200 counts as ready; every failure of the request is swallowed. *)
Lemma probe_spec E port service_name s :
  let url := Run.health_url port in
  let asked := after (CGet url) (Z.of_N (latency E (CGet url) s)) s in
  Run.probe E port service_name s =
  match requests_get E url s with
  | Done response =>
      if status_code response =? 200
      then (Ok true, snd (print (service_name ++ " is ready on port " ++ str port) asked))
      else (Ok false, asked)
  | Fails _ _ => (Ok false, asked)
  end.
Proof.
  unfold Run.probe, try_except, get, perform, bind.
  destruct (requests_get E (Run.health_url port) s) as [response|c msg]; cbn [lift].
  - destruct (status_code response =? 200); reflexivity.
  - reflexivity.
Qed.

Lemma probe_returns E port service_name s :
  exists ready s1,
    Run.probe E port service_name s = (Ok ready, s1) /\ now s <= now s1.
Proof.
  rewrite probe_spec.
  destruct (requests_get E (Run.health_url port) s) as [response|c msg];
    [destruct (status_code response =? 200)|];
    eexists _, _; (split; [reflexivity|]); cbn; lia.
Qed.

(** The loop ends within [fuel] tests once [fuel - 1] more seconds reach
    the deadline. *)
Lemma wait_loop_ends E port service_name timeout start_time fuel s :
  1000 * timeout <= now s - start_time + 1000 * (Z.of_nat fuel - 1) ->
  (1 <= fuel)%nat ->
  exists ready s',
    Run.wait_loop E fuel port service_name timeout start_time s = (Ok (Some ready), s').
Proof.
  revert s. induction fuel as [|fuel IH]; intros s Hfuel Hpos; [lia|].
  cbn [Run.wait_loop]. unfold bind at 1. cbn [time_time].
  destruct (Z.ltb_spec (now s - start_time) (1000 * timeout)) as [Hlt|Hge].
  - destruct (probe_returns E port service_name s) as (ready & s1 & Hprobe & Hnow).
    erewrite bind_ok by exact Hprobe.
    destruct ready.
    + now exists true, s1.
    + erewrite bind_ok by reflexivity.
      apply IH; cbn [now after]; lia.
  - now exists false, s.
Qed.

Lemma wait_for_service_total E port service_name timeout s :
  exists ready s',
    Run.wait_for_service E port service_name timeout s = (Ok (Some ready), s').
Proof.
  unfold Run.wait_for_service, Run.wait_for_service_fuel.
  erewrite bind_ok by reflexivity. erewrite bind_ok by reflexivity.
  edestruct (wait_loop_ends E port service_name timeout) as (ready & s' & H);
    [| | erewrite bind_ok by exact H].
  - cbn [now print snd]. lia.
  - lia.
  - destruct ready; eexists _, _; reflexivity.
Qed.

(** While no response has status 200, the loop runs to its deadline and
    overshoots it by less than a sleep and one request. *)
Lemma wait_loop_never_ready E port service_name timeout start_time D fuel s :
  (forall w, match requests_get E (Run.health_url port) w with
             | Done response => status_code response <> 200
             | Fails _ _ => True
             end) ->
  (forall w, Z.of_N (latency E (CGet (Run.health_url port)) w) <= D) ->
  1000 * timeout <= now s - start_time + 1000 * (Z.of_nat fuel - 1) ->
  (1 <= fuel)%nat ->
  now s - start_time < 1000 * timeout + 1000 + D ->
  exists s',
    Run.wait_loop E fuel port service_name timeout start_time s = (Ok (Some false), s') /\
    1000 * timeout <= now s' - start_time < 1000 * timeout + 1000 + D /\
    stdout s' = stdout s.
Proof.
  intros Hnever Hlat. revert s.
  induction fuel as [|fuel IH]; intros s Hfuel Hpos Hinv; [lia|].
  cbn [Run.wait_loop]. unfold bind at 1. cbn [time_time].
  destruct (Z.ltb_spec (now s - start_time) (1000 * timeout)) as [Hlt|Hge].
  - assert (Hprobe : Run.probe E port service_name s =
              (Ok false, after (CGet (Run.health_url port))
                           (Z.of_N (latency E (CGet (Run.health_url port)) s)) s)).
    { rewrite probe_spec. specialize (Hnever s).
      destruct (requests_get E (Run.health_url port) s) as [response|c msg];
        [|reflexivity].
      destruct (Z.eqb_spec (status_code response) 200); [contradiction|reflexivity]. }
    rewrite (@bind_ok _ _ _ _ _ _ _ Hprobe).
    erewrite bind_ok by reflexivity.
    specialize (Hlat s).
    pose proof (N2Z.is_nonneg (latency E (CGet (Run.health_url port)) s)).
    edestruct IH as (s' & Hs' & Hbound & Hout); [| | | exists s'; split; [exact Hs'|]].
    + cbn [now after]. lia.
    + lia.
    + cbn [now after]. lia.
    + split; [exact Hbound | exact Hout].
  - exists s. repeat split; lia.
Qed.

(** A round of the loop that starts before the deadline. *)
Lemma wait_loop_round E fuel port service_name timeout start_time s :
  now s - start_time < 1000 * timeout ->
  Run.wait_loop E (S fuel) port service_name timeout start_time s =
  match Run.probe E port service_name s with
  | (Ok true, s1) => (Ok (Some true), s1)
  | (Ok false, s1) =>
      Run.wait_loop E fuel port service_name timeout start_time
        (after (CSleep 1) 1000 s1)
  | (Raise e, s1) => (Raise e, s1)
  end.
Proof.
  intros Hlt. cbn [Run.wait_loop]. unfold bind at 1. cbn [time_time].
  destruct (Z.ltb_spec (now s - start_time) (1000 * timeout)) as [_|Hge]; [|lia].
  unfold bind at 1.
  destruct (Run.probe E port service_name s) as [[[|]|e] s1]; reflexivity.
Qed.

(** C5, as the script has it.  In every round of the waiter's loop that
    starts before the deadline, a response with status 200 makes it return
    [True] at once, whatever the body: the request is the last call made.
    A response with any other status, 2xx or not, is treated as not ready:
    the round sleeps its second and the loop goes on. *)
Theorem ready_on_status_200 (E : env) (fuel : nat) (port : Z) (service_name : string)
    (timeout start_time : Z) (s : state) (response : Response) :
  now s - start_time < 1000 * timeout ->
  requests_get E (Run.health_url port) s = Done response ->
  let asked := after (CGet (Run.health_url port))
                 (Z.of_N (latency E (CGet (Run.health_url port)) s)) s in
  (status_code response = 200 ->
   Run.wait_loop E (S fuel) port service_name timeout start_time s =
     (Ok (Some true),
      snd (print (service_name ++ " is ready on port " ++ str port) asked))) /\
  (status_code response <> 200 ->
   Run.wait_loop E (S fuel) port service_name timeout start_time s =
     Run.wait_loop E fuel port service_name timeout start_time
       (after (CSleep 1) 1000 asked)).
Proof.
  intros Hlt Hget asked.
  rewrite wait_loop_round by exact Hlt.
  rewrite probe_spec, Hget.
  split; intros Hstatus.
  - rewrite Hstatus. reflexivity.
  - destruct (Z.eqb_spec (status_code response) 200); [contradiction|].
    reflexivity.
Qed.

Lemma ready_on_status_200_witness :
  Run.wait_loop quiet 1 5000 "journal_service" 30 0 boot =
    (Ok (Some true),
     snd (print ("journal_service" ++ " is ready on port " ++ str 5000)
            (after (CGet (Run.health_url 5000))
               (Z.of_N (latency quiet (CGet (Run.health_url 5000)) boot)) boot))).
Proof.
  apply (ready_on_status_200 quiet 0 5000 "journal_service" 30 0 boot
           (response := {| status_code := 200; body := "" |})).
  - reflexivity.
  - reflexivity.
  - reflexivity.
Defined.

(** C5 as stated fails: the endpoint answers 204 to every request, and the
    waiter reports that the service did not become available. *)
Lemma status_204_is_not_ready :
  requests_get no_content (Run.health_url 5000) boot
    = Done {| status_code := 204; body := "" |} /\
  fst (Run.wait_for_service no_content 5000 "journal_service" 3 boot) = Ok (Some false) /\
  hd_error (stdout (snd (Run.wait_for_service no_content 5000 "journal_service" 3 boot)))
    = Some "Warning: journal_service did not become available on port 5000 within 3 seconds".
Proof. vm_compute. auto. Qed.

(** C6, as the script has it.  Against an endpoint that never answers 200,
    every failure of the request is swallowed and [wait_for_service]
    returns [False]; it does so at least [timeout] seconds after the call,
    and less than [timeout] seconds plus the one-second sleep plus the
    longest time [D] a request takes (all in milliseconds). *)
Theorem unready_wait_times_out (E : env) (port : Z) (service_name : string)
    (timeout D : Z) (s : state) :
  0 <= timeout ->
  (forall w, match requests_get E (Run.health_url port) w with
             | Done response => status_code response <> 200
             | Fails _ _ => True
             end) ->
  (forall w, Z.of_N (latency E (CGet (Run.health_url port)) w) <= D) ->
  exists s',
    Run.wait_for_service E port service_name timeout s = (Ok (Some false), s') /\
    1000 * timeout <= now s' - now s < 1000 * timeout + 1000 + D.
Proof.
  intros HT Hnever Hlat.
  unfold Run.wait_for_service, Run.wait_for_service_fuel.
  erewrite bind_ok by reflexivity. erewrite bind_ok by reflexivity.
  pose proof (Hlat s) as HD.
  pose proof (N2Z.is_nonneg (latency E (CGet (Run.health_url port)) s)).
  edestruct (@wait_loop_never_ready E port service_name timeout) as (s' & Hs' & Hbound & _);
    [exact Hnever | exact Hlat | | | | erewrite bind_ok by exact Hs'].
  - cbn [now print snd]. lia.
  - lia.
  - cbn [now print snd]. lia.
  - eexists. split; [reflexivity|]. cbn [now print snd] in *. exact Hbound.
Qed.

Lemma unready_wait_times_out_witness :
  exists s',
    Run.wait_for_service stalled 5000 "journal_service" 3 boot = (Ok (Some false), s') /\
    1000 * 3 <= now s' - now boot < 1000 * 3 + 1000 + 1000.
Proof.
  apply (unready_wait_times_out stalled 5000 "journal_service" (timeout := 3) (D := 1000) boot).
  - lia.
  - intros w. exact I.
  - intros w. cbn. lia.
Defined.

(** C6 as stated fails: with requests that run into their one-second
    timeout and [timeout = 3], the waiter returns after four seconds, which
    is not less than the timeout plus the one-second poll interval. *)
Lemma slow_requests_overshoot :
  fst (Run.wait_for_service stalled 5000 "journal_service" 3 boot) = Ok (Some false) /\
  now (snd (Run.wait_for_service stalled 5000 "journal_service" 3 boot)) - now boot = 4000 /\
  ~ (now (snd (Run.wait_for_service stalled 5000 "journal_service" 3 boot)) - now boot
     < 1000 * 3 + 1000).
Proof. vm_compute. repeat split. intros H. discriminate H. Qed.

(** ** The pre-flight reaping *)

(** C1 fails on run.py.  Two descriptors of [services] declare ports, 5010
    and 5008, that the reaping loop leaves out, so a stale process on 5010
    survives it; the loop of run_production_fixed.py covers every declared
    port and kills that process. *)
Theorem reap_ports_misses_declared_ports :
  map (fun svc => (name svc, port svc))
    (filter (fun svc => negb (existsb (Z.eqb (port svc)) Run.reaped_ports)) Run.services)
    = [("forex_data_service", 5010); ("trade_mentor_service", 5008)] /\
  filter (fun c => match c with CKill _ _ => true | _ => false end)
    (trace (snd (Run.reap_ports (stale_on 5010) boot))) = [] /\
  forallb (fun svc => existsb (Z.eqb (port svc)) RunProductionFixed.ports_to_clear)
    Run.services = true /\
  In (CKill 11 SIGKILL)
    (trace (snd (RunProductionFixed.clear_ports (stale_on 5010) boot))).
Proof. vm_compute. intuition. Qed.

(** ** The status report *)

(** C2 fails on run.py.  With three descriptors of which the second never
    starts, the run goes through and the handles of the first and the third
    are registered; the report, which looks up [processes] by the position
    of the descriptor, then marks the second as running and the third as
    not running. *)
Theorem status_report_misattributes :
  fst (Run.supervise b_fails [svc_a; svc_b; svc_c] boot) = Ok tt /\
  processes (snd (Run.supervise b_fails [svc_a; svc_b; svc_c] boot))
    = [ {| pid := 1 |}; {| pid := 3 |} ] /\
  firstn 3 (stdout (snd (Run.supervise b_fails [svc_a; svc_b; svc_c] boot)))
    = [ "  ✗ C - Not running"; "  ✓ B - Running"; "  ✓ journal_service - Running" ].
Proof. vm_compute. repeat split. Qed.

(** ** The teardown *)

Lemma rev_group_kills pgid_of p ps :
  rev (group_kills pgid_of (p :: ps))
  = (rev (group_kills pgid_of ps)
     ++ [CKillpg (pgid_of (pid p)) SIGTERM; CGetpgid (pid p)])%list.
Proof. unfold group_kills. cbn [flat_map]. now rewrite rev_app_distr. Qed.

Section LiveChildren.
Variable E : env.
Variable pgid_of : Z -> Z.
Variable ps : list Popen.
Hypothesis lookup : forall p w,
  In p ps -> os_getpgid E (pid p) w = Done (pgid_of (pid p)).
Hypothesis signalled : forall p w,
  In p ps -> os_killpg E (pgid_of (pid p)) SIGTERM w = Done tt.

(** The loop of run.py's handler over handles that are all alive. *)
Lemma teardown_loop (l : list Popen) (s : state) :
  incl l ps ->
  exists s',
    for_each l (fun p => pgid <- getpgid E (pid p) ;; killpg E pgid SIGTERM) s
      = (Ok tt, s') /\
    trace s' = (rev (group_kills pgid_of l) ++ trace s)%list.
Proof.
  revert s. induction l as [|p l IH]; intros s Hincl.
  - now exists s.
  - assert (Hp : In p ps) by (apply Hincl; now left).
    cbn [for_each]. unfold bind at 1 2. unfold getpgid, killpg, perform.
    rewrite lookup by exact Hp. cbn [lift].
    rewrite signalled by exact Hp. cbn [lift].
    edestruct IH as (s' & Hs' & Ht); [| exists s'; split; [exact Hs'|]].
    + intros q Hq. apply Hincl. now right.
    + rewrite Ht, rev_group_kills, <- app_assoc. reflexivity.
Qed.

(** The same for the guarded loop of run_production_fixed.py. *)
Lemma fixed_teardown_loop (l : list Popen) (s : state) :
  incl l ps ->
  exists s',
    for_each l (RunProductionFixed.kill_group E) s = (Ok tt, s') /\
    trace s' = (rev (group_kills pgid_of l) ++ trace s)%list.
Proof.
  revert s. induction l as [|p l IH]; intros s Hincl.
  - now exists s.
  - assert (Hp : In p ps) by (apply Hincl; now left).
    cbn [for_each]. unfold bind at 1. unfold RunProductionFixed.kill_group at 1.
    unfold try_except, bind at 1, getpgid, killpg, perform.
    rewrite lookup by exact Hp. cbn [lift].
    rewrite signalled by exact Hp. cbn [lift].
    edestruct IH as (s' & Hs' & Ht); [| exists s'; split; [exact Hs'|]].
    + intros q Hq. apply Hincl. now right.
    + rewrite Ht, rev_group_kills, <- app_assoc. reflexivity.
Qed.
End LiveChildren.

(** C3, as the scripts have it.  Both scripts register their handler for
    the interrupt signal and for no other.  When the interrupt arrives
    while every registered child can be looked up and signalled, the
    handler looks up the group of each child and sends it SIGTERM, in the
    order of registration and nothing else, and then raises [SystemExit]
    with code 0, on which the idle supervisor of run.py exits with
    status 0. *)
Theorem sigint_tears_down (E : env) (pgid_of : Z -> Z) (s : state) :
  (forall p w, In p (processes s) -> os_getpgid E (pid p) w = Done (pgid_of (pid p))) ->
  (forall p w, In p (processes s) -> os_killpg E (pgid_of (pid p)) SIGTERM w = Done tt) ->
  (forall sig, Run.dispositions E sig
               = if signum_eqb sig SIGINT then Handler (Run.signal_handler E)
                 else initial_dispositions sig) /\
  (forall sig, RunProductionFixed.dispositions E sig
               = if signum_eqb sig SIGINT then Handler (RunProductionFixed.signal_handler E)
                 else initial_dispositions sig) /\
  (exists s', deliver (Run.dispositions E) SIGINT s = (Unwinds (SystemExit 0), s') /\
              Run.idle_receives E SIGINT s = (ExitsWith 0, s') /\
              trace s' = (rev (group_kills pgid_of (processes s)) ++ trace s)%list) /\
  (exists s', deliver (RunProductionFixed.dispositions E) SIGINT s
                = (Unwinds (SystemExit 0), s') /\
              trace s' = (rev (group_kills pgid_of (processes s)) ++ trace s)%list) /\
  exit_status (SystemExit 0) = 0.
Proof.
  intros Hlookup Hsignal.
  split; [reflexivity|]. split; [reflexivity|]. split; [|split; [|reflexivity]].
  - destruct (@teardown_loop E pgid_of (processes s) Hlookup Hsignal (processes s)
                (snd (print "Stopping servers..." s)) (incl_refl _)) as (s' & Hs' & Ht).
    exists s'. unfold Run.idle_receives.
    enough (Hd : deliver (Run.dispositions E) SIGINT s = (Unwinds (SystemExit 0), s'))
      by (rewrite Hd; auto).
    unfold deliver, Run.dispositions, signal_signal. cbn [signum_eqb].
    assert (H : Run.signal_handler E s = (Raise (SystemExit 0), s')).
    { unfold Run.signal_handler.
      erewrite bind_ok by reflexivity. erewrite bind_ok by reflexivity.
      cbn [processes print snd] in *.
      rewrite (@bind_ok _ _ _ _ _ _ _ Hs'). reflexivity. }
    now rewrite H.
  - destruct (@fixed_teardown_loop E pgid_of (processes s) Hlookup Hsignal (processes s)
                (snd (logger "Stopping all services..." s)) (incl_refl _)) as (s' & Hs' & Ht).
    exists s'. split; [|exact Ht].
    unfold deliver, RunProductionFixed.dispositions, signal_signal. cbn [signum_eqb].
    assert (H : RunProductionFixed.signal_handler E s = (Raise (SystemExit 0), s')).
    { unfold RunProductionFixed.signal_handler.
      erewrite bind_ok by reflexivity. erewrite bind_ok by reflexivity.
      cbn [processes logger snd] in *.
      rewrite (@bind_ok _ _ _ _ _ _ _ Hs'). reflexivity. }
    now rewrite H.
Qed.

Lemma sigint_tears_down_witness :
  exists s',
    deliver (Run.dispositions quiet) SIGINT three_running = (Unwinds (SystemExit 0), s') /\
    Run.idle_receives quiet SIGINT three_running = (ExitsWith 0, s') /\
    trace s' = (rev (group_kills (fun p => p) (processes three_running))
                ++ trace three_running)%list.
Proof.
  apply (@sigint_tears_down quiet (fun p => p) three_running).
  - intros p w _. reflexivity.
  - intros p w _. reflexivity.
Defined.

(** C3 as stated fails: the terminate signal keeps the default action of
    the system in both scripts, so on SIGTERM the supervisor is ended
    without its handler: nothing is printed and no child is signalled. *)
Lemma sigterm_runs_no_teardown :
  Run.dispositions quiet SIGTERM = SIG_DFL /\
  RunProductionFixed.dispositions quiet SIGTERM = SIG_DFL /\
  deliver (Run.dispositions quiet) SIGTERM three_running
    = (KilledBy SIGTERM, three_running) /\
  deliver (RunProductionFixed.dispositions quiet) SIGTERM three_running
    = (KilledBy SIGTERM, three_running) /\
  Run.idle_receives quiet SIGTERM three_running = (EndedBy SIGTERM, three_running).
Proof. repeat split. Qed.

(** C4 fails on run.py.  With three registered children of which the
    second has been reaped, the handler signals the group of the first and
    then lets the [ProcessLookupError] of [os.getpgid] escape: the third
    child is never signalled and [sys.exit(0)] is not reached, so the idle
    supervisor ends on the uncaught exception with status 1.  A second
    invocation ends the same way. *)
Theorem signal_handler_raises_on_dead_child :
  let gone := PyExc ProcessLookupError "[Errno 3] No such process" in
  let first := Run.signal_handler reaped_child three_running in
  let second := Run.signal_handler reaped_child (snd first) in
  fst first = Raise gone /\
  rev (trace (snd first)) = [CGetpgid 100; CKillpg 100 SIGTERM; CGetpgid 101] /\
  fst second = Raise gone /\
  fst (deliver (Run.dispositions reaped_child) SIGINT three_running) = Unwinds gone /\
  fst (Run.idle_receives reaped_child SIGINT three_running) = ExitsWith 1.
Proof. vm_compute. repeat split. Qed.

(** The handler of run_production_fixed.py does what the one of run.py
    misses: whatever the lookups and the kills answer, as long as they fail
    with an [OSError], it ends with [SystemExit] of code 0 and leaves the
    registry as it was, so that a second invocation ends the same way. *)
Lemma fixed_kill_group_returns E p s :
  (forall q w c msg, os_getpgid E q w = Fails c msg -> is_OSError c = true) ->
  (forall g w c msg, os_killpg E g SIGTERM w = Fails c msg -> is_OSError c = true) ->
  exists s', RunProductionFixed.kill_group E p s = (Ok tt, s') /\
             processes s' = processes s.
Proof.
  intros Hget Hkill.
  unfold RunProductionFixed.kill_group, try_except, bind, getpgid, killpg, perform.
  destruct (os_getpgid E (pid p) s) as [g|c msg] eqn:Hg; cbn [lift].
  - match goal with |- context [os_killpg E g SIGTERM ?w] =>
      destruct (os_killpg E g SIGTERM w) as [[]|c msg] eqn:Hk end; cbn [lift].
    + eexists. split; reflexivity.
    + rewrite (Hkill _ _ _ _ Hk). eexists. split; reflexivity.
  - rewrite (Hget _ _ _ _ Hg). eexists. split; reflexivity.
Qed.

Lemma fixed_signal_handler_tolerant E s :
  (forall q w c msg, os_getpgid E q w = Fails c msg -> is_OSError c = true) ->
  (forall g w c msg, os_killpg E g SIGTERM w = Fails c msg -> is_OSError c = true) ->
  exists s' s'',
    RunProductionFixed.signal_handler E s = (Raise (SystemExit 0), s') /\
    RunProductionFixed.signal_handler E s' = (Raise (SystemExit 0), s'').
Proof.
  intros Hget Hkill.
  assert (Hloop : forall l s0, exists s1,
            for_each l (RunProductionFixed.kill_group E) s0 = (Ok tt, s1) /\
            processes s1 = processes s0).
  { induction l as [|p l IH]; intros s0.
    - now exists s0.
    - destruct (fixed_kill_group_returns E p s0 Hget Hkill) as (s1 & H1 & Hp1).
      destruct (IH s1) as (s2 & H2 & Hp2).
      exists s2. cbn [for_each]. erewrite bind_ok by exact H1.
      split; [exact H2 | congruence]. }
  assert (Hrun : forall s0, exists s1,
            RunProductionFixed.signal_handler E s0 = (Raise (SystemExit 0), s1)).
  { intros s0. unfold RunProductionFixed.signal_handler, bind at 1 2, read_processes.
    cbn [logger].
    match goal with |- context [bind (for_each ?l _) _ ?w] =>
      destruct (Hloop l w) as (s1 & H1 & _) end.
    exists s1. erewrite bind_ok by exact H1. reflexivity. }
  destruct (Hrun s) as (s' & Hs'). destruct (Hrun s') as (s'' & Hs'').
  now exists s', s''.
Qed.

(** ** What a computation adds to the trace *)

Lemma extends_refl P s : extends P s s.
Proof. exists []. split; [reflexivity | constructor]. Qed.

Lemma extends_trans P s1 s2 s3 :
  extends P s1 s2 -> extends P s2 s3 -> extends P s1 s3.
Proof.
  intros (l1 & H1 & F1) (l2 & H2 & F2). exists (l2 ++ l1)%list. split.
  - now rewrite H2, H1, app_assoc.
  - apply Forall_app. now split.
Qed.

Lemma extends_after (P : call -> Prop) c ms s : P c -> extends P s (after c ms s).
Proof. intros Hc. exists [c]. split; [reflexivity | now constructor]. Qed.

Lemma extends_In P s s' c : extends P s s' -> In c (trace s) -> In c (trace s').
Proof. intros (l & H & _) Hin. rewrite H. apply in_or_app. now right. Qed.

Lemma extends_count s s' :
  extends (fun c => is_popen c = false) s s' -> count is_popen s' = count is_popen s.
Proof.
  intros (l & H & F). unfold count. rewrite H, filter_app. clear H.
  replace (filter is_popen l) with (@nil call); [reflexivity|].
  induction F as [|c l Hc _ IH]; cbn [filter]; [reflexivity | now rewrite Hc].
Qed.

Section Emits.
Variable P : call -> Prop.

Lemma emits_ret {A} (a : A) : emits P (ret a).
Proof. intros s. apply extends_refl. Qed.

Lemma emits_raise {A} e : emits P (@raise A e).
Proof. intros s. apply extends_refl. Qed.

Lemma emits_bind {A B} (m : M A) (k : A -> M B) :
  emits P m -> (forall a, emits P (k a)) -> emits P (bind m k).
Proof.
  intros Hm Hk s. unfold bind. specialize (Hm s).
  destruct (m s) as [[a|e] s1]; cbn [snd] in *.
  - eapply extends_trans; [exact Hm | apply Hk].
  - exact Hm.
Qed.

Lemma emits_try_except {A} (m : M A) handles h :
  emits P m -> (forall e, emits P (h e)) -> emits P (try_except m handles h).
Proof.
  intros Hm Hh s. unfold try_except. specialize (Hm s).
  destruct (m s) as [[a|e] s1]; cbn [snd] in *.
  - exact Hm.
  - destruct (handles e); [|exact Hm].
    eapply extends_trans; [exact Hm | apply Hh].
Qed.

Lemma emits_for_each {A} (l : list A) (body : A -> M unit) :
  (forall x, emits P (body x)) -> emits P (for_each l body).
Proof.
  intros Hb. induction l as [|x l IH]; cbn [for_each].
  - apply emits_ret.
  - apply emits_bind; auto.
Qed.

Lemma emits_perform {A} E c (answer : state -> outcome A) :
  P c -> emits P (perform E c answer).
Proof. intros Hc s. now apply extends_after. Qed.

Lemma emits_sleep n : P (CSleep n) -> emits P (time_sleep n).
Proof. intros Hc s. now apply extends_after. Qed.

Lemma emits_print line : emits P (print line).
Proof. intros s. exists []. split; [reflexivity | constructor]. Qed.

Lemma emits_logger line : emits P (logger line).
Proof. intros s. exists []. split; [reflexivity | constructor]. Qed.

Lemma emits_time : emits P time_time.
Proof. intros s. apply extends_refl. Qed.

Lemma emits_read : emits P read_processes.
Proof. intros s. apply extends_refl. Qed.

Lemma emits_append pro : emits P (processes_append pro).
Proof. intros s. exists []. split; [reflexivity | constructor]. Qed.
End Emits.

Ltac solve_emits :=
  repeat first
    [ apply emits_bind; [| intros ?]
    | apply emits_try_except; [| intros ?]
    | apply emits_for_each; intros ?
    | apply emits_ret | apply emits_raise | apply emits_print | apply emits_logger
    | apply emits_time | apply emits_read | apply emits_append
    | apply emits_perform; solve [reflexivity | exact I]
    | apply emits_sleep; solve [reflexivity | exact I]
    | match goal with
      | |- emits _ (match ?x with _ => _ end) => destruct x
      | |- emits _ (if ?x then _ else _) => destruct x
      end ].

(** The reaping and the pre-flight steps spawn no service. *)
Lemma reap_ports_spawns_nothing E :
  emits (fun c => is_popen c = false) (Run.reap_ports E).
Proof.
  unfold Run.reap_ports, Run.kill_process_on_port, Run.find_and_kill, Run.kill_pid,
    run, kill, sys_exit.
  solve_emits.
Qed.

Lemma preflight_spawns_nothing E :
  emits (fun c => is_popen c = false) (Run.preflight E).
Proof.
  unfold Run.preflight, Run.install_python_dependencies, Run.install_requirements,
    Run.build_frontend, Run.setup_database, os_path_exists, remove, run_check, run,
    sys_exit.
  solve_emits.
Qed.

Lemma wait_loop_emits E fuel port service_name timeout start_time :
  emits (fun _ => True) (Run.wait_loop E fuel port service_name timeout start_time).
Proof.
  induction fuel as [|fuel IH]; cbn [Run.wait_loop]; unfold Run.probe, get; solve_emits.
  exact IH.
Qed.

Lemma attempt_start_emits E svc attempt max_retries :
  emits (fun _ => True) (Run.attempt_start E svc attempt max_retries).
Proof.
  unfold Run.attempt_start, popen, poll, communicate. solve_emits.
Qed.

Lemma attempts_emits E svc max_retries left :
  emits (fun _ => True) (Run.attempts E svc max_retries left).
Proof.
  induction left as [|attempt rest IH]; cbn [Run.attempts].
  - apply emits_ret.
  - apply emits_bind.
    + apply emits_try_except; [apply attempt_start_emits | intros e; solve_emits].
    + intros [pro|]; solve_emits. exact IH.
Qed.

Lemma launch_emits E svc : emits (fun _ => True) (Run.launch E svc).
Proof.
  unfold Run.launch, Run.start_service_with_retry, Run.wait_for_service,
    Run.wait_for_service_fuel.
  apply emits_bind.
  - apply emits_bind; [apply attempts_emits | intros [pro|]; solve_emits].
  - intros [pro|]; solve_emits; apply wait_loop_emits.
Qed.

(** ** The launch loop never stops early *)

Lemma calls_perform {A} E c (answer : state -> outcome A) : calls c (perform E c answer).
Proof. intros s. now left. Qed.

Lemma calls_bind_l {A B} c (m : M A) (k : A -> M B) :
  calls c m -> (forall a, emits (fun _ => True) (k a)) -> calls c (bind m k).
Proof.
  intros Hm Hk s. unfold bind. specialize (Hm s).
  destruct (m s) as [[a|e] s1]; cbn [snd] in *.
  - eapply extends_In; [apply Hk | exact Hm].
  - exact Hm.
Qed.

Lemma calls_bind_r {A B} c (m : M A) (k : A -> M B) :
  (forall s, exists a s1, m s = (Ok a, s1)) -> (forall a, calls c (k a)) ->
  calls c (bind m k).
Proof.
  intros Hm Hk s. destruct (Hm s) as (a & s1 & H).
  erewrite bind_ok by exact H. apply Hk.
Qed.

Lemma calls_try_except {A} c (m : M A) handles h :
  calls c m -> (forall e, emits (fun _ => True) (h e)) ->
  calls c (try_except m handles h).
Proof.
  intros Hm Hh s. unfold try_except. specialize (Hm s).
  destruct (m s) as [[a|e] s1]; cbn [snd] in *.
  - exact Hm.
  - destruct (handles e); [|exact Hm].
    eapply extends_In; [apply Hh | exact Hm].
Qed.

(** With at least one attempt to make, the launcher spawns the command. *)
Lemma start_service_with_retry_spawns E svc :
  calls (CPopen (command svc) (cwd svc)) (Run.start_service_with_retry E svc 3).
Proof.
  unfold Run.start_service_with_retry. change (range 3) with [0; 1; 2].
  apply calls_bind_l; [|intros [pro|]; solve_emits].
  cbn [Run.attempts]. apply calls_bind_l.
  - apply calls_try_except; [|intros e; solve_emits].
    unfold Run.attempt_start. apply calls_bind_r.
    + intros s. eexists tt, _. reflexivity.
    + intros _. unfold popen. apply calls_bind_l.
      * apply calls_bind_l; [apply calls_perform | intros p; solve_emits].
      * intros pro. unfold poll, communicate. solve_emits.
  - intros [pro|]; solve_emits.
Qed.

Lemma launch_spawns E svc : calls (CPopen (command svc) (cwd svc)) (Run.launch E svc).
Proof.
  unfold Run.launch. apply calls_bind_l; [apply start_service_with_retry_spawns|].
  intros [pro|]; unfold Run.wait_for_service, Run.wait_for_service_fuel;
    solve_emits; apply wait_loop_emits.
Qed.

Lemma launch_returns E svc s : exists s', Run.launch E svc s = (Ok tt, s').
Proof.
  unfold Run.launch.
  destruct (start_service_with_retry_returns E svc 3 s) as ([pro|] & s1 & H);
    rewrite (@bind_ok _ _ _ _ _ _ _ H); cbn beta iota.
  - erewrite bind_ok by reflexivity.
    destruct (existsb _ _); [|eexists; reflexivity].
    edestruct (wait_for_service_total E (port svc) (name svc) 30) as (ready & s2 & Hw).
    rewrite (@bind_ok _ _ _ _ _ _ _ Hw). eexists. reflexivity.
  - eexists. reflexivity.
Qed.

Lemma launch_all_attempts_each E svcs s :
  exists s',
    Run.launch_all E svcs s = (Ok tt, s') /\
    forall svc, In svc svcs -> In (CPopen (command svc) (cwd svc)) (trace s').
Proof.
  unfold Run.launch_all. revert s.
  induction svcs as [|svc0 rest IH]; intros s.
  - exists s. split; [reflexivity | intros svc []].
  - destruct (launch_returns E svc0 s) as (s1 & H1).
    destruct (IH s1) as (s' & Hs' & Hall).
    exists s'. cbn [for_each]. erewrite bind_ok by exact H1.
    split; [exact Hs'|].
    intros svc [<-|Hin]; [|now apply Hall].
    pose proof (launch_spawns E svc0 s) as Hspawn.
    rewrite H1 in Hspawn. cbn [snd] in Hspawn.
    pose proof (emits_for_each rest (Run.launch E)
                  (fun x => @launch_emits E x) s1) as Hext.
    rewrite Hs' in Hext. cbn [snd] in Hext.
    exact (@extends_In _ _ _ _ Hext Hspawn).
Qed.

(** ** A failed pre-flight step ends the run *)

Lemma ordinary_aborting {A} (m : M A) : ordinary m -> aborting m.
Proof. intros Hm s e s1 H. apply Hm in H. now destruct e. Qed.

Lemma aborting_bind {A B} (m : M A) (k : A -> M B) :
  aborting m -> (forall a, aborting (k a)) -> aborting (bind m k).
Proof.
  intros Hm Hk s e s2. unfold bind.
  destruct (m s) as [[a|e1] s1] eqn:Hms.
  - apply Hk.
  - intros H. injection H as <- <-. eapply Hm, Hms.
Qed.

Lemma aborting_try_except {A} (m : M A) handles h :
  aborting m -> (forall e, aborting (h e)) -> aborting (try_except m handles h).
Proof.
  intros Hm Hh s e s2. unfold try_except.
  destruct (m s) as [[a|e1] s1] eqn:Hms.
  - discriminate.
  - destruct (handles e1); [apply Hh|].
    intros H. injection H as <- <-. eapply Hm, Hms.
Qed.

Lemma aborting_for_each {A} (l : list A) (body : A -> M unit) :
  (forall x, aborting (body x)) -> aborting (for_each l body).
Proof.
  intros Hb. induction l as [|x l IH]; cbn [for_each].
  - intros s e s1 H. discriminate H.
  - apply aborting_bind; auto.
Qed.

Lemma aborting_exit_1 {A} : aborting (@sys_exit A 1).
Proof. intros s e s1 H. now injection H as <- <-. Qed.

Ltac solve_aborting :=
  repeat first
    [ apply aborting_bind; [| intros ?]
    | apply aborting_try_except; [| intros ?]
    | apply aborting_for_each; intros ?
    | apply aborting_exit_1
    | apply ordinary_aborting; solve [auto with ordinary]
    | match goal with
      | |- aborting (match ?x with _ => _ end) => destruct x
      | |- aborting (if ?x then _ else _) => destruct x
      end ].

Lemma preflight_aborting E : aborting (Run.preflight E).
Proof.
  unfold Run.preflight, Run.install_python_dependencies, Run.install_requirements,
    Run.build_frontend, Run.setup_database, os_path_exists, remove, run_check, run.
  solve_aborting.
Qed.

Lemma fails_bind_l {A B} (m : M A) (k : A -> M B) : fails m -> fails (bind m k).
Proof.
  intros Hm s. destruct (Hm s) as (e & s1 & H).
  exists e, s1. now apply bind_raise.
Qed.

Lemma fails_bind_r {A B} (m : M A) (k : A -> M B) :
  (forall a, fails (k a)) -> fails (bind m k).
Proof.
  intros Hk s. unfold bind. destruct (m s) as [[a|e] s1].
  - apply Hk.
  - now exists e, s1.
Qed.

Lemma fails_try_except {A} (m : M A) handles h :
  fails m -> (forall e, fails (h e)) -> fails (try_except m handles h).
Proof.
  intros Hm Hh s. unfold try_except. destruct (Hm s) as (e & s1 & H). rewrite H.
  destruct (handles e); [apply Hh | now exists e, s1].
Qed.

Lemma fails_for_each {A} (l : list A) (body : A -> M unit) x :
  In x l -> fails (body x) -> fails (for_each l body).
Proof.
  intros Hin Hx. induction l as [|y l IH]; [destruct Hin|].
  cbn [for_each]. destruct Hin as [->|Hin].
  - now apply fails_bind_l.
  - apply fails_bind_r. intros _. now apply IH.
Qed.

Lemma fails_exit {A} code : fails (@sys_exit A code).
Proof. intros s. now exists (SystemExit code), s. Qed.

(** [subprocess.run(argv, check=True)] of a command that never succeeds. *)
Lemma run_check_fails E argv : collaborator_fails E argv -> fails (run_check E argv).
Proof.
  intros Hfail s. unfold run_check, bind, run, perform. specialize (Hfail s).
  destruct (subprocess_run E argv s) as [cp|c msg]; cbn [lift].
  - destruct (Z.eqb_spec (returncode cp) 0); [contradiction|].
    eexists _, _. reflexivity.
  - eexists _, _. reflexivity.
Qed.

(** The [try] around a pre-flight command that never succeeds. *)
Lemma guarded_step_fails E argv (done : string) handles (failed : exn -> string) :
  collaborator_fails E argv ->
  fails (try_except (run_check E argv ;; print done) handles
           (fun e => print (failed e) ;; sys_exit 1)).
Proof.
  intros Hfail. apply fails_try_except.
  - apply fails_bind_l. now apply run_check_fails.
  - intros e. apply fails_bind_r. intros _. apply fails_exit.
Qed.

Lemma preflight_fails_raises E : preflight_fails E -> fails (Run.preflight E).
Proof.
  unfold Run.preflight.
  intros [(req_file & Hin & Hex & Hpip) | [Hbuild | Hdb]].
  - apply fails_bind_l. unfold Run.install_python_dependencies.
    apply (fails_for_each _ _ req_file Hin).
    intros s. unfold Run.install_requirements, bind at 1, os_path_exists, perform.
    rewrite Hex. cbn [lift].
    apply fails_bind_r. intros _. now apply guarded_step_fails.
  - apply fails_bind_r. intros _. apply fails_bind_l.
    unfold Run.build_frontend. apply fails_bind_r. intros _.
    now apply guarded_step_fails.
  - apply fails_bind_r. intros _. apply fails_bind_r. intros _.
    unfold Run.setup_database. do 3 (apply fails_bind_r; intros ?).
    now apply guarded_step_fails.
Qed.

Lemma reap_ports_returns E s : exists s', Run.reap_ports E s = (Ok tt, s').
Proof.
  unfold Run.reap_ports. generalize Run.reaped_ports. intros l. revert s.
  induction l as [|p l IH]; intros s.
  - now exists s.
  - destruct (kill_process_on_port_returns E p s) as (s1 & H1).
    cbn [for_each]. erewrite bind_ok by exact H1. apply IH.
Qed.

(** C8.  A service that could not be started does not stop the run: when
    the launcher returns [None], the loop prints the failure and goes on
    with the descriptors left; the loop never raises, and every descriptor
    has its command spawned at least once.  A failing pre-flight step
    instead ends the whole run with status 1 before any service is
    spawned. *)
Theorem launch_failures_are_local (E : env) (svcs : list service) (s : state) :
  (forall svc rest s1,
      Run.start_service_with_retry E svc 3 s = (Ok None, s1) ->
      Run.launch_all E (svc :: rest) s
      = Run.launch_all E rest
          (snd (print ("Critical service " ++ name svc
                       ++ " failed to start. Continuing with other services...") s1))) /\
  (exists s',
      Run.launch_all E svcs s = (Ok tt, s') /\
      forall svc, In svc svcs -> In (CPopen (command svc) (cwd svc)) (trace s')) /\
  (preflight_fails E ->
   exists e s',
     Run.supervise E svcs s = (Raise e, s') /\
     exit_status e = 1 /\
     count is_popen s' = count is_popen s).
Proof.
  split; [|split].
  - intros svc rest s1 H. unfold Run.launch_all. cbn [for_each].
    unfold bind at 1, Run.launch, bind at 1. rewrite H. reflexivity.
  - apply launch_all_attempts_each.
  - intros Hfail. unfold Run.supervise.
    destruct (reap_ports_returns E s) as (s1 & H1).
    destruct (preflight_fails_raises Hfail s1) as (e & s2 & H2).
    exists e, s2. split; [|split].
    + rewrite (@bind_ok _ _ _ _ _ _ _ H1). now apply bind_raise.
    + eapply preflight_aborting. exact H2.
    + pose proof (reap_ports_spawns_nothing E s) as X1. rewrite H1 in X1.
      pose proof (preflight_spawns_nothing E s1) as X2. rewrite H2 in X2.
      cbn [snd] in *.
      apply extends_count in X1, X2. congruence.
Qed.

Lemma launch_failures_are_local_witness :
  exists e s',
    Run.main broken_build boot = (Raise e, s') /\
    exit_status e = 1 /\
    count is_popen s' = count is_popen boot.
Proof.
  apply (launch_failures_are_local broken_build Run.services boot).
  right. left. intros w. cbn. discriminate.
Defined.

(** * Further properties of the scripts *)

Lemma count_after (p : call -> bool) c ms s :
  count p (after c ms s) = count p s + (if p c then 1 else 0).
Proof.
  unfold count. cbn [after trace filter]. destruct (p c); cbn [List.length]; lia.
Qed.

Lemma count_print (p : call -> bool) line s : count p (snd (print line s)) = count p s.
Proof. reflexivity. Qed.

(** ** The readiness waiter: rounds and verdicts *)

(** The loop makes [n] requests; a round is entered only before the
    deadline, and every round but a successful one ends with the sleep. *)
Lemma wait_loop_rounds E port service_name timeout start_time fuel s :
  1000 * timeout <= now s - start_time + 1000 * (Z.of_nat fuel - 1) ->
  (1 <= fuel)%nat ->
  exists ready s' n,
    Run.wait_loop E fuel port service_name timeout start_time s = (Ok (Some ready), s') /\
    0 <= n /\
    (n = 0 \/ now s - start_time + 1000 * (n - 1) < 1000 * timeout) /\
    count is_get s' = count is_get s + n /\
    count (is_sleep 1) s' = count (is_sleep 1) s + (if ready then n - 1 else n) /\
    (ready = true -> 1 <= n) /\
    (now s - start_time < 1000 * timeout -> 1 <= n) /\
    now s <= now s'.
Proof.
  revert s. induction fuel as [|fuel IH]; intros s Hfuel Hpos; [lia|].
  destruct (Z.ltb_spec (now s - start_time) (1000 * timeout)) as [Hlt|Hge].
  - rewrite wait_loop_round by exact Hlt. rewrite probe_spec.
    set (asked := after (CGet (Run.health_url port))
                    (Z.of_N (latency E (CGet (Run.health_url port)) s)) s).
    pose proof (N2Z.is_nonneg (latency E (CGet (Run.health_url port)) s)) as Hlat.
    assert (Hrec : exists ready s' n,
              Run.wait_loop E fuel port service_name timeout start_time
                (after (CSleep 1) 1000 asked) = (Ok (Some ready), s') /\
              0 <= n /\
              (n = 0 \/ now s - start_time + 1000 * (n - 1) < 1000 * timeout) /\
              count is_get s' = count is_get s + n /\
              count (is_sleep 1) s' = count (is_sleep 1) s + (if ready then n - 1 else n) /\
              (ready = true -> 1 <= n) /\
              (now s - start_time < 1000 * timeout -> 1 <= n) /\
              now s <= now s').
    { destruct (IH (after (CSleep 1) 1000 asked))
        as (ready & s' & n & Hs' & Hn & Hbound & Hget & Hsleep & Hready & _ & Hnow).
      - cbn [now after asked]. lia.
      - lia.
      - exists ready, s', (n + 1).
        unfold asked in Hget, Hsleep, Hbound, Hnow.
        rewrite !count_after in Hget, Hsleep.
        cbn [is_get is_sleep Z.eqb Pos.eqb] in Hget, Hsleep.
        cbn [now after] in Hbound, Hnow.
        split; [exact Hs'|]. repeat split; try lia.
        destruct ready; lia. }
    destruct (requests_get E (Run.health_url port) s) as [response|c msg];
      [destruct (status_code response =? 200)|]; try exact Hrec.
    exists true, (snd (print (service_name ++ " is ready on port " ++ str port) asked)), 1.
    split; [reflexivity|].
    rewrite !count_print. unfold asked. rewrite !count_after.
    cbn [is_get is_sleep Z.eqb Pos.eqb print snd now after].
    repeat split; lia.
  - exists false, s, 0. cbn [Run.wait_loop]. unfold bind at 1. cbn [time_time].
    destruct (Z.ltb_spec (now s - start_time) (1000 * timeout)); [lia|].
    repeat split; try lia; discriminate.
Qed.

(** X1.  [wait_for_service] always comes back with [True] or [False]: it
    never raises and its loop ends.  It makes at most [timeout] requests
    (none when [timeout <= 0], at least one otherwise) and sleeps its second
    after every request but a successful one. *)
Theorem wait_for_service_polls_at_most_timeout (E : env) (port : Z)
    (service_name : string) (timeout : Z) (s : state) :
  exists ready s' n,
    Run.wait_for_service E port service_name timeout s = (Ok (Some ready), s') /\
    0 <= n <= Z.max 0 timeout /\
    count is_get s' = count is_get s + n /\
    count (is_sleep 1) s' = count (is_sleep 1) s + (if ready then n - 1 else n) /\
    (0 < timeout -> 1 <= n).
Proof.
  unfold Run.wait_for_service, Run.wait_for_service_fuel.
  erewrite bind_ok by reflexivity. erewrite bind_ok by reflexivity.
  edestruct (@wait_loop_rounds E port service_name timeout)
    as (ready & s' & n & Hs' & Hn & Hbound & Hget & Hsleep & Hready & Hfirst & _);
    [| | rewrite (@bind_ok _ _ _ _ _ _ _ Hs')].
  - cbn [now print snd]. lia.
  - lia.
  - cbn [now print snd] in Hbound, Hfirst.
    destruct ready; eexists _, _, n; (split; [reflexivity|]);
      unfold count in Hget, Hsleep |- *; cbn [print snd trace ret] in Hget, Hsleep |- *;
      repeat split; try assumption; lia.
Qed.




(** ** The launcher: budget and handles *)

(** One turn of the attempt loop, whatever the world answers: the command
    is spawned once; the turn ends the loop with a handle that was alive at
    its poll, or goes on with the attempts left, after the backoff unless
    this was the last attempt. *)
Lemma attempts_step E svc N attempt rest s :
  exists r s1,
    count is_popen s1 = count is_popen s + 1 /\
    count (is_sleep 3) s1 = count (is_sleep 3) s /\
    count (is_sleep 2) s1 <= count (is_sleep 2) s + 1 /\
    (forall pro, r = Some pro ->
       trace s1 = CPoll (pid pro) :: CSleep 2
                  :: CPopen (command svc) (cwd svc) :: trace s /\
       (exists w, popen_spawn E (command svc) (cwd svc) w = Done (pid pro)) /\
       (exists w, popen_poll E (pid pro) w = None) /\
       hd_error (stdout s1) = Some (name svc ++ " started successfully")) /\
    Run.attempts E svc N (attempt :: rest) s =
    match r with
    | Some pro => (Ok (Some pro), s1)
    | None =>
        Run.attempts E svc N rest
          (if attempt <? N - 1
           then after (CSleep 3) 3000
                  (snd (print ("Retrying " ++ name svc ++ " in 3 seconds...") s1))
           else s1)
    end.
Proof.
  cbn [Run.attempts].
  unfold try_except, Run.attempt_start, popen, poll, communicate, perform, bind,
    print, time_sleep, ret. cbn [now stdout logged trace processes after].
  match goal with |- context [popen_spawn E _ _ ?w] =>
    destruct (popen_spawn E (command svc) (cwd svc) w) as [p|c msg] eqn:Hspawn end;
    cbn [lift pid is_Exception now stdout logged trace processes after].
  - match goal with |- context [popen_poll E p ?w] =>
      destruct (popen_poll E p w) as [code|] eqn:Hpoll end; cbn [lift pid].
    + match goal with |- context [popen_communicate E p ?w] =>
        destruct (popen_communicate E p w) as [out|c msg] end;
        cbn [lift is_Exception now stdout logged trace processes after];
        (eexists None, _; split; [|split; [|split; [|split; [discriminate|]]]];
         [| | | destruct (attempt <? N - 1); reflexivity]);
        unfold count; cbn [trace after filter is_popen is_sleep Z.eqb Pos.eqb List.length]; lia.
    + eexists (Some {| pid := p |}), _.
      split; [|split; [|split; [|split; [|reflexivity]]]];
        try (unfold count; cbn [trace after filter is_popen is_sleep Z.eqb Pos.eqb List.length]; lia).
      intros pro Hpro. injection Hpro as <-. cbn [pid trace after stdout hd_error].
      repeat split; eauto.
  - eexists None, _; split; [|split; [|split; [|split; [discriminate|]]]];
      [| | | destruct (attempt <? N - 1); reflexivity];
      unfold count; cbn [trace after filter is_popen is_sleep Z.eqb Pos.eqb List.length]; lia.
Qed.

(** The loop over the attempts [i, i + 1, ..., N - 1]. *)
Lemma attempts_budget E svc N (k i : nat) s :
  Z.of_nat (i + k) = N ->
  exists r s' d,
    Run.attempts E svc N (map Z.of_nat (seq i k)) s = (Ok r, s') /\
    0 <= d <= Z.of_nat k /\
    ((1 <= k)%nat -> 1 <= d) /\
    (r = None -> d = Z.of_nat k) /\
    count is_popen s' = count is_popen s + d /\
    count (is_sleep 3) s' = count (is_sleep 3) s + Z.max 0 (d - 1) /\
    count (is_sleep 2) s' <= count (is_sleep 2) s + d /\
    (forall pro, r = Some pro ->
       (exists t, trace s' = CPoll (pid pro) :: CSleep 2
                             :: CPopen (command svc) (cwd svc) :: t) /\
       (exists w, popen_spawn E (command svc) (cwd svc) w = Done (pid pro)) /\
       (exists w, popen_poll E (pid pro) w = None) /\
       hd_error (stdout s') = Some (name svc ++ " started successfully")).
Proof.
  revert i s. induction k as [|k IH]; intros i s HN.
  - exists None, s, 0. cbn [seq map Run.attempts ret].
    split; [reflexivity|]. repeat split; try lia; congruence.
  - cbn [seq map].
    destruct (attempts_step E svc N (Z.of_nat i) (map Z.of_nat (seq (S i) k)) s)
      as (r & s1 & Hp & Hs3 & Hs2 & Hsome & Heq).
    rewrite Heq. destruct r as [pro|].
    + destruct (Hsome pro eq_refl) as (Ht & Hspawn & Hpoll & Hout).
      exists (Some pro), s1, 1. split; [reflexivity|].
      split; [lia|]. split; [lia|]. split; [congruence|].
      split; [lia|]. split; [lia|]. split; [lia|].
      intros pro' Hpro'. injection Hpro' as <-.
      split; [eexists; exact Ht | auto].
    + destruct (Z.ltb_spec (Z.of_nat i) (N - 1)) as [Hlt|Hge].
      * edestruct (IH (S i)) as (r & s' & d & Hs' & Hd & Hd1 & Hnone & Hp' & Hs3' & Hs2' & Hsome');
          [lia | exists r, s', (d + 1); split; [exact Hs'|]].
        rewrite !count_after in Hp', Hs3', Hs2'. rewrite !count_print in Hp', Hs3', Hs2'.
        cbn [is_popen is_sleep Z.eqb Pos.eqb] in Hp', Hs3', Hs2'.
        assert (1 <= d) by (apply Hd1; lia).
        split; [lia|]. split; [lia|].
        split; [intros Hr; specialize (Hnone Hr); lia|].
        split; [lia|]. split; [lia|]. split; [lia|]. exact Hsome'.
      * assert (k = 0)%nat by lia. subst k.
        exists None, s1, 1. cbn [seq map Run.attempts ret].
        split; [reflexivity|]. repeat split; try lia; congruence.
Qed.

Lemma range_negative (N : Z) : N < 0 -> range N = [].
Proof. intros HN. unfold range. now replace (Z.to_nat N) with 0%nat by lia. Qed.

(** X3.  Whatever the world answers, [start_service_with_retry] stays
    within its budget: it spawns the command [d] times with [d] at most
    [max_retries] (and at least once when [max_retries] is positive), it
    sleeps the backoff exactly [d - 1] times, that is between consecutive
    spawns only, it sleeps the settle time at most once per spawn, and it
    gives up with [None] only after all [max_retries] spawns. *)
Theorem launcher_stays_within_budget (E : env) (svc : service) (N : Z) (s : state) :
  exists r s' d,
    Run.start_service_with_retry E svc N s = (Ok r, s') /\
    0 <= d <= Z.max 0 N /\
    (0 < N -> 1 <= d) /\
    (r = None -> d = Z.max 0 N) /\
    count is_popen s' = count is_popen s + d /\
    count (is_sleep 3) s' = count (is_sleep 3) s + Z.max 0 (d - 1) /\
    count (is_sleep 2) s' <= count (is_sleep 2) s + d.
Proof.
  unfold Run.start_service_with_retry.
  destruct (Z.lt_ge_cases N 0) as [Hneg|HN].
  - rewrite range_negative by exact Hneg. cbn [Run.attempts].
    eexists None, _, 0. split; [reflexivity|].
    unfold count. cbn [print snd trace]. repeat split; lia.
  - destruct (@attempts_budget E svc N (Z.to_nat N) 0 s)
      as (r & s1 & d & Hs1 & Hd & Hd1 & Hnone & Hp & Hs3 & Hs2 & _); [lia|].
    fold (range N) in Hs1. rewrite (@bind_ok _ _ _ _ _ _ _ Hs1).
    destruct r as [pro|].
    + exists (Some pro), s1, d. split; [reflexivity|].
      repeat split; try lia. discriminate.
    + eexists None, _, d. split; [reflexivity|].
      unfold count in *. cbn [print snd trace].
      specialize (Hnone eq_refl). repeat split; lia.
Qed.





(** X5.  When the command can be spawned and its process is alive after
    the settle sleep, [start_service_with_retry] returns the handle from the
    first attempt: one spawn, one settle sleep, one poll, no backoff and no
    retry, at least two seconds after the call. *)
Theorem launch_succeeds_at_first_attempt (E : env) (svc : service) (N p : Z) (s : state) :
  0 < N ->
  (forall w, popen_spawn E (command svc) (cwd svc) w = Done p) ->
  (forall w, popen_poll E p w = None) ->
  exists s',
    Run.start_service_with_retry E svc N s = (Ok (Some {| pid := p |}), s') /\
    trace s' = CPoll p :: CSleep 2 :: CPopen (command svc) (cwd svc) :: trace s /\
    stdout s' = (name svc ++ " started successfully")
                :: ("Starting " ++ name svc ++ " service (attempt " ++ str (0 + 1)
                    ++ "/" ++ str N ++ ")...")
                :: stdout s /\
    2000 <= now s' - now s.
Proof.
  intros HN Hspawn Halive.
  unfold Run.start_service_with_retry, range.
  replace (Z.to_nat N) with (S (Z.to_nat (N - 1))) by lia.
  cbn [seq map Run.attempts].
  unfold try_except, Run.attempt_start, popen, poll, perform, bind,
    print, time_sleep, ret. cbn [now stdout logged trace processes after].
  rewrite Hspawn. cbn [lift pid now stdout logged trace processes after].
  rewrite Halive. cbn [lift].
  eexists. split; [reflexivity|].
  cbn [now stdout logged trace processes after Z.of_nat].
  repeat split.
  pose proof (N2Z.is_nonneg (latency E (CPopen (command svc) (cwd svc))
    {| now := now s;
       stdout := ("Starting " ++ name svc ++ " service (attempt " ++ str (0 + 1)
                  ++ "/" ++ str N ++ ")...") :: stdout s;
       logged := logged s; trace := trace s; processes := processes s |})).
  match goal with |- context [latency E (CPoll p) ?w] =>
    pose proof (N2Z.is_nonneg (latency E (CPoll p) w)) end.
  lia.
Qed.

Lemma launch_succeeds_at_first_attempt_witness :
  exists s',
    Run.start_service_with_retry b_fails svc_a 3 boot = (Ok (Some {| pid := 1 |}), s') /\
    trace s' = CPoll 1 :: CSleep 2 :: CPopen (command svc_a) (cwd svc_a) :: trace boot /\
    stdout s' = (name svc_a ++ " started successfully")
                :: ("Starting " ++ name svc_a ++ " service (attempt " ++ str (0 + 1)
                    ++ "/" ++ str 3 ++ ")...")
                :: stdout boot /\
    2000 <= now s' - now boot.
Proof.
  apply (@launch_succeeds_at_first_attempt b_fails svc_a 3 1 boot).
  - lia.
  - intros w. reflexivity.
  - intros w. reflexivity.
Defined.

(** ** The registry and the report *)

Lemma keeps_ret {A} (a : A) : keeps_registry (ret a).
Proof. intros s. reflexivity. Qed.

Lemma keeps_raise {A} e : keeps_registry (@raise A e).
Proof. intros s. reflexivity. Qed.

Lemma keeps_bind {A B} (m : M A) (k : A -> M B) :
  keeps_registry m -> (forall a, keeps_registry (k a)) -> keeps_registry (bind m k).
Proof.
  intros Hm Hk s. unfold bind. specialize (Hm s).
  destruct (m s) as [[a|e] s1]; cbn [snd] in *.
  - now rewrite Hk.
  - exact Hm.
Qed.

Lemma keeps_try_except {A} (m : M A) handles h :
  keeps_registry m -> (forall e, keeps_registry (h e)) ->
  keeps_registry (try_except m handles h).
Proof.
  intros Hm Hh s. unfold try_except. specialize (Hm s).
  destruct (m s) as [[a|e] s1]; cbn [snd] in *.
  - exact Hm.
  - destruct (handles e); [now rewrite Hh | exact Hm].
Qed.

Lemma keeps_for_each {A} (l : list A) (body : A -> M unit) :
  (forall x, keeps_registry (body x)) -> keeps_registry (for_each l body).
Proof.
  intros Hb. induction l as [|x l IH]; cbn [for_each].
  - apply keeps_ret.
  - apply keeps_bind; auto.
Qed.

Lemma keeps_perform {A} E c (answer : state -> outcome A) :
  keeps_registry (perform E c answer).
Proof. intros s. reflexivity. Qed.

Lemma keeps_print line : keeps_registry (print line).
Proof. intros s. reflexivity. Qed.

Lemma keeps_logger line : keeps_registry (logger line).
Proof. intros s. reflexivity. Qed.

Lemma keeps_sleep n : keeps_registry (time_sleep n).
Proof. intros s. reflexivity. Qed.

Lemma keeps_time : keeps_registry time_time.
Proof. intros s. reflexivity. Qed.

Ltac solve_keeps :=
  repeat first
    [ apply keeps_bind; [| intros ?]
    | apply keeps_try_except; [| intros ?]
    | apply keeps_for_each; intros ?
    | apply keeps_ret | apply keeps_raise | apply keeps_print | apply keeps_logger
    | apply keeps_time | apply keeps_perform | apply keeps_sleep
    | match goal with
      | |- keeps_registry (match ?x with _ => _ end) => destruct x
      | |- keeps_registry (if ?x then _ else _) => destruct x
      end ].

Lemma attempts_keep_registry E svc max_retries left :
  keeps_registry (Run.attempts E svc max_retries left).
Proof.
  induction left as [|attempt rest IH]; cbn [Run.attempts].
  - apply keeps_ret.
  - unfold Run.attempt_start, popen, poll, communicate. solve_keeps. exact IH.
Qed.

Lemma start_service_with_retry_keeps_registry E svc max_retries :
  keeps_registry (Run.start_service_with_retry E svc max_retries).
Proof.
  unfold Run.start_service_with_retry.
  apply keeps_bind; [apply attempts_keep_registry | intros [pro|]; solve_keeps].
Qed.

Lemma wait_for_service_keeps_registry E port service_name timeout :
  keeps_registry (Run.wait_for_service E port service_name timeout).
Proof.
  unfold Run.wait_for_service, Run.wait_for_service_fuel.
  generalize (S (Z.to_nat timeout)). intros fuel.
  apply keeps_bind; [apply keeps_print | intros _].
  apply keeps_bind; [apply keeps_time | intros start_time].
  apply keeps_bind; [|intros r; solve_keeps].
  induction fuel as [|fuel IH]; cbn [Run.wait_loop]; unfold Run.probe, get; solve_keeps.
  exact IH.
Qed.

(** What one launch adds to the registry: the handle the launcher returned,
    if it returned one. *)
Lemma launch_registers E svc s :
  exists s',
    Run.launch E svc s = (Ok tt, s') /\
    processes s' =
    (processes s ++
     match fst (Run.start_service_with_retry E svc 3 s) with
     | Ok (Some pro) => [pro]
     | _ => []
     end)%list.
Proof.
  unfold Run.launch.
  pose proof (start_service_with_retry_keeps_registry E svc 3 s) as Hkeep.
  destruct (start_service_with_retry_returns E svc 3 s) as ([pro|] & s1 & H).
  - rewrite H in Hkeep |- *. cbn [fst snd] in *.
    rewrite (@bind_ok _ _ _ _ _ _ _ H). cbn beta iota.
    erewrite bind_ok by reflexivity.
    destruct (existsb _ _).
    + pose proof (wait_for_service_keeps_registry E (port svc) (name svc) 30
                    (snd (processes_append pro s1))) as Hwait.
      destruct (wait_for_service_total E (port svc) (name svc) 30
                  (snd (processes_append pro s1))) as (ready & s2 & Hw).
      rewrite Hw in Hwait. cbn [snd] in Hwait.
      cbn [processes_append snd] in Hw.
      rewrite (@bind_ok _ _ _ _ _ _ _ Hw).
      eexists. split; [reflexivity|]. cbn [ret snd].
      rewrite Hwait. cbn [processes_append snd processes]. now rewrite Hkeep.
    + eexists. split; [reflexivity|]. cbn [ret processes]. now rewrite Hkeep.
  - rewrite H in Hkeep |- *. cbn [fst snd] in *.
    rewrite (@bind_ok _ _ _ _ _ _ _ H). cbn beta iota.
    eexists. split; [reflexivity|]. cbn [print snd processes].
    now rewrite Hkeep, app_nil_r.
Qed.


(** The report loop from position [i] on, in a world where whether a
    process is alive does not change. *)
Lemma report_loop_lines E (alive : Z -> bool) svcs (i : nat) s :
  (forall p w, match popen_poll E p w with
               | None => alive p = true
               | Some _ => alive p = false
               end) ->
  exists s',
    for_each (Run.enumerate i svcs) (Run.report E) s = (Ok tt, s') /\
    stdout s' =
      (rev (map (fun entry => status_line (registered_up alive (processes s) (fst entry))
                                (snd entry))
              (Run.enumerate i svcs)) ++ stdout s)%list /\
    processes s' = processes s.
Proof.
  intros Halive. revert i s.
  induction svcs as [|svc rest IH]; intros i s.
  - now exists s.
  - cbn [Run.enumerate for_each map rev fst snd].
    assert (Hone : exists s1,
      Run.report E (i, svc) s = (Ok tt, s1) /\
      stdout s1 = status_line (registered_up alive (processes s) i) svc :: stdout s /\
      processes s1 = processes s).
    { unfold Run.report, Run.running_at, bind, read_processes, poll, perform,
        registered_up, status_line.
      destruct (nth_error (processes s) i) as [pro|]; cbn [lift ret].
      - specialize (Halive (pid pro) s).
        destruct (popen_poll E (pid pro) s); rewrite Halive;
          eexists; repeat split; reflexivity.
      - eexists; repeat split; reflexivity. }
    destruct Hone as (s1 & H1 & Hout1 & Hps1).
    destruct (IH (S i) s1) as (s' & Hs' & Hout & Hps).
    exists s'. rewrite (@bind_ok _ _ _ _ _ _ _ H1).
    split; [exact Hs'|]. split; [|congruence].
    rewrite Hout, Hout1, Hps1, <- app_assoc. reflexivity.
Qed.

(** X7.  In a world where whether a process is alive does not change
    during the report, [report_status] prints its two header lines and then
    one line per descriptor, in the order of the descriptors; the [i]-th
    descriptor is marked running exactly when the registry has an [i]-th
    handle and that handle's process is alive, so every descriptor at a
    position past the end of the registry is marked not running.  The
    registry is left as it was. *)
Theorem report_status_goes_by_position (E : env) (alive : Z -> bool)
    (svcs : list service) (s : state) :
  (forall p w, match popen_poll E p w with
               | None => alive p = true
               | Some _ => alive p = false
               end) ->
  exists s',
    Run.report_status E svcs s = (Ok tt, s') /\
    stdout s' =
      (rev (map (fun entry => status_line (registered_up alive (processes s) (fst entry))
                                (snd entry))
              (Run.enumerate 0 svcs))
       ++ ["Services status:"; "All services started."] ++ stdout s)%list /\
    processes s' = processes s.
Proof.
  intros Halive. unfold Run.report_status.
  erewrite bind_ok by reflexivity. erewrite bind_ok by reflexivity.
  destruct (@report_loop_lines E alive svcs 0
              (snd (print "Services status:" (snd (print "All services started." s))))
              Halive) as (s' & Hs' & Hout & Hps).
  exists s'. split; [exact Hs'|]. split; [exact Hout | exact Hps].
Qed.

Lemma report_status_goes_by_position_witness :
  exists s',
    Run.report_status b_fails [svc_a; svc_b; svc_c]
      (snd (Run.launch_all b_fails [svc_a; svc_b; svc_c] boot)) = (Ok tt, s') /\
    firstn 3 (stdout s') = [ "  ✗ C - Not running"; "  ✓ B - Running";
                             "  ✓ journal_service - Running" ].
Proof.
  destruct (@report_status_goes_by_position b_fails (fun p => negb (p =? 2))
              [svc_a; svc_b; svc_c]
              (snd (Run.launch_all b_fails [svc_a; svc_b; svc_c] boot)))
    as (s' & Hs' & Hout & _).
  - intros p w. cbn. destruct (p =? 2); reflexivity.
  - exists s'. split; [exact Hs'|]. rewrite Hout. reflexivity.
Defined.

(** ** Who is polled *)

Lemma extends_count_none (p : call -> bool) s s' :
  extends (fun c => p c = false) s s' -> count p s' = count p s.
Proof.
  intros (l & H & F). unfold count. rewrite H, filter_app. clear H.
  replace (filter p l) with (@nil call); [reflexivity|].
  induction F as [|c l Hc _ IH]; cbn [filter]; [reflexivity | now rewrite Hc].
Qed.

Lemma attempts_make_no_request E svc max_retries left :
  emits (fun c => is_get c = false) (Run.attempts E svc max_retries left).
Proof.
  induction left as [|attempt rest IH]; cbn [Run.attempts].
  - apply emits_ret.
  - unfold Run.attempt_start, popen, poll, communicate. solve_emits. exact IH.
Qed.

Lemma start_service_with_retry_makes_no_request E svc max_retries :
  emits (fun c => is_get c = false) (Run.start_service_with_retry E svc max_retries).
Proof.
  unfold Run.start_service_with_retry.
  apply emits_bind; [apply attempts_make_no_request | intros [pro|]; solve_emits].
Qed.

(** X8.  Only the service named [journal_service] is waited for: the
    launch of a descriptor with any other name makes no HTTP request at
    all, whether its start succeeds or not. *)
Theorem launch_polls_only_the_journal (E : env) (svc : service) (s : state) :
  name svc <> "journal_service" ->
  count is_get (snd (Run.launch E svc s)) = count is_get s.
Proof.
  intros Hname. apply extends_count_none.
  assert (Hno : existsb (String.eqb (name svc)) ["journal_service"] = false).
  { cbn [existsb]. destruct (String.eqb_spec (name svc) "journal_service");
      [contradiction | reflexivity]. }
  revert s. change (emits (fun c => is_get c = false) (Run.launch E svc)).
  unfold Run.launch. rewrite Hno.
  apply emits_bind; [apply start_service_with_retry_makes_no_request|].
  intros [pro|]; solve_emits.
Qed.

Lemma launch_polls_only_the_journal_witness :
  count is_get (snd (Run.launch quiet frontend boot)) = count is_get boot.
Proof.
  apply (@launch_polls_only_the_journal quiet frontend boot).
  discriminate.
Defined.

(** The waiter's loop does nothing but poll one URL and sleep a second. *)
Lemma wait_loop_only_polls E fuel port service_name timeout start_time :
  emits (fun c => c = CGet (Run.health_url port) \/ c = CSleep 1)
    (Run.wait_loop E fuel port service_name timeout start_time).
Proof.
  induction fuel as [|fuel IH]; cbn [Run.wait_loop].
  - apply emits_ret.
  - apply emits_bind; [apply emits_time | intros t].
    destruct (t - start_time <? 1000 * timeout); [|apply emits_ret].
    apply emits_bind.
    + unfold Run.probe, get. apply emits_try_except.
      * apply emits_bind; [apply emits_perform; now left | intros r].
        destruct (status_code r =? 200); solve_emits.
      * intros e. apply emits_ret.
    + intros [|]; [apply emits_ret|].
      apply emits_bind; [apply emits_sleep; now right | intros _; exact IH].
Qed.

(** What a whole wait adds to the trace. *)
Lemma wait_for_service_polls E port service_name timeout s :
  exists ready s' polls,
    Run.wait_for_service E port service_name timeout s = (Ok (Some ready), s') /\
    trace s' = (polls ++ trace s)%list /\
    Forall (fun c => c = CGet (Run.health_url port) \/ c = CSleep 1) polls /\
    0 <= Z.of_nat (List.length (filter is_get polls)) <= Z.max 0 timeout /\
    (0 < timeout -> 1 <= Z.of_nat (List.length (filter is_get polls))).
Proof.
  unfold Run.wait_for_service, Run.wait_for_service_fuel.
  erewrite bind_ok by reflexivity. erewrite bind_ok by reflexivity.
  match goal with |- context [bind (Run.wait_loop ?E0 ?f ?p ?nm ?T ?st) _ ?w] =>
    destruct (@wait_loop_rounds E0 p nm T st f w)
      as (ready & s3 & n & Hloop & Hn & Hbound & Hget & _ & _ & Hfirst & _);
      [cbn [now print snd]; lia | lia |];
    pose proof (@wait_loop_only_polls E0 f p nm T st w) as (polls & Hpolls & Fpolls)
  end.
  rewrite Hloop in Hpolls. cbn [snd print trace] in Hpolls.
  assert (Hcount : Z.of_nat (List.length (filter is_get polls)) = n).
  { unfold count in Hget. cbn [print snd trace] in Hget.
    rewrite Hpolls, filter_app, length_app in Hget. lia. }
  cbn [now print snd] in Hbound, Hfirst.
  rewrite (@bind_ok _ _ _ _ _ _ _ Hloop).
  destruct ready; eexists _, _, polls; (split; [reflexivity|]);
    cbn [print snd trace ret]; (split; [exact Hpolls|]); (split; [exact Fpolls|]);
    split; lia.
Qed.

(** X9.  When the launcher returns a handle for the service named
    [journal_service], the launch registers the handle and then does
    nothing but wait for the service: between one and thirty requests to
    the health URL of the declared port, with one-second sleeps, and no
    other call. *)
Theorem launch_waits_for_the_journal (E : env) (svc : service) (s s1 : state)
    (pro : Popen) :
  name svc = "journal_service" ->
  Run.start_service_with_retry E svc 3 s = (Ok (Some pro), s1) ->
  exists s' polls,
    Run.launch E svc s = (Ok tt, s') /\
    processes s' = (processes s ++ [pro])%list /\
    trace s' = (polls ++ trace s1)%list /\
    Forall (fun c => c = CGet (Run.health_url (port svc)) \/ c = CSleep 1) polls /\
    (1 <= List.length (filter is_get polls) <= 30)%nat.
Proof.
  intros Hname Hstart.
  destruct (launch_registers E svc s) as (s' & Hs' & Hreg).
  rewrite Hstart in Hreg. cbn [fst] in Hreg.
  unfold Run.launch in Hs'. rewrite (@bind_ok _ _ _ _ _ _ _ Hstart) in Hs'.
  cbn beta iota in Hs'.
  replace (existsb (String.eqb (name svc)) ["journal_service"]) with true in Hs'
    by (rewrite Hname; reflexivity).
  erewrite bind_ok in Hs' by reflexivity.
  destruct (wait_for_service_polls E (port svc) (name svc) 30
              (snd (processes_append pro s1)))
    as (ready & s2 & polls & Hw & Ht & Fpolls & Hmax & Hmin).
  rewrite (@bind_ok _ _ _ _ _ _ _ Hw) in Hs'. cbv [ret] in Hs'.
  injection Hs' as <-.
  exists s2, polls. split; [|split; [exact Hreg|split; [exact Ht|split; [exact Fpolls|lia]]]].
  unfold Run.launch. rewrite (@bind_ok _ _ _ _ _ _ _ Hstart). cbn beta iota.
  replace (existsb (String.eqb (name svc)) ["journal_service"]) with true
    by (rewrite Hname; reflexivity).
  erewrite bind_ok by reflexivity.
  rewrite (@bind_ok _ _ _ _ _ _ _ Hw). reflexivity.
Qed.

Lemma launch_waits_for_the_journal_witness :
  exists s' polls,
    Run.launch b_fails svc_a boot = (Ok tt, s') /\
    processes s' = (processes boot ++ [{| pid := 1 |}])%list /\
    trace s' = (polls ++ trace (snd (Run.start_service_with_retry b_fails svc_a 3 boot)))%list /\
    Forall (fun c => c = CGet (Run.health_url (port svc_a)) \/ c = CSleep 1) polls /\
    (1 <= List.length (filter is_get polls) <= 30)%nat.
Proof.
  apply (@launch_waits_for_the_journal b_fails svc_a boot
           (snd (Run.start_service_with_retry b_fails svc_a 3 boot)) {| pid := 1 |}).
  - reflexivity.
  - reflexivity.
Defined.

(** ** The reaper at work *)

(** The loop over the lines of lsof when every non-empty line is a number
    and every kill succeeds. *)
Lemma kill_pids_all E port lines s :
  Forall (fun line => nonempty line = true -> int line <> None) lines ->
  (forall n w, In n (numbers lines) -> os_kill E n SIGKILL w = Done tt) ->
  exists s',
    for_each lines (Run.kill_pid E port) s = (Ok tt, s') /\
    trace s' = (rev (map (fun n => CKill n SIGKILL) (numbers lines)) ++ trace s)%list /\
    stdout s' = (rev (map (kill_notice port) (filter nonempty lines)) ++ stdout s)%list.
Proof.
  intros Hvalid. revert s.
  induction Hvalid as [|line rest Hline _ IH]; intros s Hkill.
  - now exists s.
  - cbn [for_each]. unfold numbers in *. cbn [filter] in *.
    unfold Run.kill_pid at 1.
    destruct (nonempty line) eqn:Hne.
    + destruct (int line) as [n|] eqn:Hint; [|now destruct Hline].
      cbn [flat_map map rev] in *. rewrite Hint in *. cbn [app map rev] in *.
      unfold bind at 1 2, print, kill, perform.
      rewrite Hkill by now left. cbn [lift].
      edestruct IH as (s' & Hs' & Ht & Hout); [| exists s'; split; [exact Hs'|]].
      * intros m w Hm. apply Hkill. now right.
      * rewrite Ht, Hout. cbn [trace stdout after]. unfold kill_notice.
        rewrite <- !app_assoc. split; reflexivity.
    + unfold bind at 1. cbn [ret]. apply IH. exact Hkill.
Qed.

(** X10.  When every non-empty line that lsof prints is a number and every
    kill succeeds, [kill_process_on_port] sends SIGKILL to each listed PID,
    once and in the order listed, makes no other call after the lookup,
    prints one notice per PID and no error. *)
Theorem reaper_kills_every_listed_pid (E : env) (port : Z) (s : state)
    (cp : CompletedProcess) :
  subprocess_run E (lsof port) s = Done cp ->
  Forall (fun line => nonempty line = true -> int line <> None)
    (split newline (strip (cp_stdout cp))) ->
  (forall n w, In n (listed_pids (cp_stdout cp)) -> os_kill E n SIGKILL w = Done tt) ->
  exists s',
    Run.kill_process_on_port E port s = (Ok tt, s') /\
    trace s' = (rev (map (fun n => CKill n SIGKILL) (listed_pids (cp_stdout cp)))
                ++ CRun (lsof port) :: trace s)%list /\
    stdout s' = (rev (map (kill_notice port)
                        (filter nonempty (split newline (strip (cp_stdout cp)))))
                 ++ stdout s)%list.
Proof.
  intros Hcp Hvalid Hkill.
  destruct (@kill_pids_all E port (split newline (strip (cp_stdout cp)))
              (after (CRun (lsof port)) (Z.of_N (latency E (CRun (lsof port)) s)) s)
              Hvalid Hkill) as (s' & Hs' & Ht & Hout).
  exists s'. split; [|split; [exact Ht | exact Hout]].
  unfold Run.kill_process_on_port. apply try_ok.
  unfold Run.find_and_kill, bind, run, perform. rewrite Hcp. cbn [lift]. exact Hs'.
Qed.

Lemma reaper_kills_every_listed_pid_witness :
  exists s',
    Run.kill_process_on_port (held_on 5000) 5000 boot = (Ok tt, s') /\
    trace s' = [CKill 22 SIGKILL; CKill 11 SIGKILL; CRun (lsof 5000)] /\
    stdout s' = [kill_notice 5000 "22"; kill_notice 5000 "11"].
Proof.
  apply (@reaper_kills_every_listed_pid (held_on 5000) 5000 boot
           {| returncode := 0;
              cp_stdout := "11" ++ String newline ("22" ++ String newline "") |}).
  - reflexivity.
  - repeat constructor; discriminate.
  - intros n w _. reflexivity.
Defined.

(** X11.  [kill_process_on_port] stops at the first line it cannot deal
    with: when the lines before [pid] went through and the step for [pid]
    raises (the line is no number, or the kill fails), the error is printed
    at that point and the call returns; the lines after [pid] are never
    looked at, so no process listed there is signalled. *)
Theorem reaper_stops_at_first_failure (E : env) (port : Z) (s s1 s2 : state)
    (cp : CompletedProcess) (before rest : list string) (pid : string) (e : exn) :
  subprocess_run E (lsof port) s = Done cp ->
  split newline (strip (cp_stdout cp)) = (before ++ pid :: rest)%list ->
  for_each before (Run.kill_pid E port)
    (after (CRun (lsof port)) (Z.of_N (latency E (CRun (lsof port)) s)) s) = (Ok tt, s1) ->
  Run.kill_pid E port pid s1 = (Raise e, s2) ->
  Run.kill_process_on_port E port s
    = (Ok tt, snd (print (reap_error port (exn_str e)) s2)).
Proof.
  intros Hcp Hsplit Hbefore Hpid.
  unfold Run.kill_process_on_port.
  erewrite try_caught.
  - reflexivity.
  - unfold Run.find_and_kill, bind at 1, run, perform. rewrite Hcp. cbn [lift].
    rewrite Hsplit, for_each_app, Hbefore. cbn [for_each].
    apply bind_raise. exact Hpid.
  - exact (@ordinary_kill_pid E port pid s1 e s2 Hpid).
Qed.

Lemma reaper_stops_at_first_failure_witness :
  Run.kill_process_on_port (stale_on 5000) 5000 boot
  = (Ok tt,
     snd (print (reap_error 5000
                   (exn_str (PyExc PermissionError "[Errno 1] Operation not permitted")))
            (snd (Run.kill_pid (stale_on 5000) 5000 "22"
                    (snd (Run.kill_pid (stale_on 5000) 5000 "11"
                            (after (CRun (lsof 5000)) 0 boot))))))).
Proof.
  apply (@reaper_stops_at_first_failure (stale_on 5000) 5000 boot
           (snd (Run.kill_pid (stale_on 5000) 5000 "11" (after (CRun (lsof 5000)) 0 boot)))
           _
           {| returncode := 0;
              cp_stdout := "11" ++ String newline ("22" ++ String newline "") |}
           ["11"] [] "22").
  - reflexivity.
  - reflexivity.
  - reflexivity.
  - reflexivity.
Defined.

(** ** The sweeps over the ports *)

Lemma extends_filter_none (p : call -> bool) s s' :
  extends (fun c => p c = false) s s' -> filter p (trace s') = filter p (trace s).
Proof.
  intros (l & H & F). rewrite H, filter_app. clear H.
  replace (filter p l) with (@nil call); [reflexivity|].
  induction F as [|c l Hc _ IH]; cbn [filter]; [reflexivity | now rewrite Hc].
Qed.

(** One reaping runs one command, the lookup of its port. *)
Lemma kill_process_on_port_runs_lsof E port s :
  filter is_run (trace (snd (Run.kill_process_on_port E port s)))
  = CRun (lsof port) :: filter is_run (trace s).
Proof.
  unfold Run.kill_process_on_port, try_except, Run.find_and_kill, bind at 1, run, perform.
  destruct (subprocess_run E (lsof port) s) as [cp|c msg]; cbn [lift is_Exception].
  - assert (Hloop : emits (fun c => is_run c = false)
                      (for_each (split newline (strip (cp_stdout cp))) (Run.kill_pid E port))).
    { unfold Run.kill_pid, kill. solve_emits. }
    specialize (Hloop (after (CRun (lsof port))
                         (Z.of_N (latency E (CRun (lsof port)) s)) s)).
    apply extends_filter_none in Hloop.
    destruct (for_each _ _ _) as [[[]|e] s1]; cbn [snd] in *.
    + exact Hloop.
    + destruct (is_Exception e); exact Hloop.
  - reflexivity.
Qed.

Lemma fixed_kill_process_on_port_runs_lsof E port s :
  filter is_run (trace (snd (RunProductionFixed.kill_process_on_port E port s)))
  = CRun (lsof port) :: filter is_run (trace s).
Proof.
  unfold RunProductionFixed.kill_process_on_port, try_except,
    RunProductionFixed.find_and_kill, bind at 1, run, perform.
  destruct (subprocess_run E (lsof port) s) as [cp|c msg]; cbn [lift is_Exception].
  - assert (Hloop : emits (fun c => is_run c = false)
                      (for_each (split newline (strip (cp_stdout cp)))
                         (RunProductionFixed.kill_pid E port))).
    { unfold RunProductionFixed.kill_pid, kill. solve_emits. }
    specialize (Hloop (after (CRun (lsof port))
                         (Z.of_N (latency E (CRun (lsof port)) s)) s)).
    apply extends_filter_none in Hloop.
    destruct (for_each _ _ _) as [[[]|e] s1]; cbn [snd] in *.
    + exact Hloop.
    + destruct (is_Exception e); exact Hloop.
  - reflexivity.
Qed.

(** A loop of reapings over [ports]. *)
Lemma sweep_runs_lsof_per_port (reap : Z -> M unit) (ports : list Z) s :
  (forall port w, exists w', reap port w = (Ok tt, w')) ->
  (forall port w, filter is_run (trace (snd (reap port w)))
                  = CRun (lsof port) :: filter is_run (trace w)) ->
  exists s',
    for_each ports reap s = (Ok tt, s') /\
    filter is_run (trace s')
    = (rev (map (fun port => CRun (lsof port)) ports) ++ filter is_run (trace s))%list.
Proof.
  intros Hret Hrun. revert s. induction ports as [|port rest IH]; intros s.
  - now exists s.
  - destruct (Hret port s) as (s1 & H1). specialize (Hrun port s).
    rewrite H1 in Hrun. cbn [snd] in Hrun.
    destruct (IH s1) as (s' & Hs' & Ht).
    exists s'. cbn [for_each]. rewrite (@bind_ok _ _ _ _ _ _ _ H1).
    split; [exact Hs'|].
    rewrite Ht, Hrun. cbn [map rev]. now rewrite <- app_assoc.
Qed.

(** X12.  A sweep never stops early: whatever lsof and the kills answer on
    one port, the loop of run.py looks up each port of its list and the
    loop of run_production_fixed.py each port of [ports_to_clear], once and
    in order, runs no other command, and returns. *)
Theorem sweeps_look_up_every_port (E : env) (s : state) :
  (exists s',
      Run.reap_ports E s = (Ok tt, s') /\
      filter is_run (trace s')
      = (rev (map (fun port => CRun (lsof port)) Run.reaped_ports)
         ++ filter is_run (trace s))%list) /\
  (exists s',
      RunProductionFixed.clear_ports E s = (Ok tt, s') /\
      filter is_run (trace s')
      = (rev (map (fun port => CRun (lsof port)) RunProductionFixed.ports_to_clear)
         ++ filter is_run (trace s))%list).
Proof.
  split.
  - apply sweep_runs_lsof_per_port.
    + intros port w. apply kill_process_on_port_returns.
    + intros port w. apply kill_process_on_port_runs_lsof.
  - apply sweep_runs_lsof_per_port.
    + intros port w. apply fixed_kill_process_on_port_returns.
    + intros port w. apply fixed_kill_process_on_port_runs_lsof.
Qed.

(** ** The guarded teardown *)

Section OSErrors.
Variable E : env.
Hypothesis lookup_errors : forall q w c msg,
  os_getpgid E q w = Fails c msg -> is_OSError c = true.
Hypothesis kill_errors : forall g w c msg,
  os_killpg E g SIGTERM w = Fails c msg -> is_OSError c = true.

Lemma fixed_kill_group_looks_up p s :
  exists s',
    RunProductionFixed.kill_group E p s = (Ok tt, s') /\
    filter is_getpgid (trace s') = CGetpgid (pid p) :: filter is_getpgid (trace s) /\
    processes s' = processes s.
Proof.
  unfold RunProductionFixed.kill_group, try_except, bind, getpgid, killpg, perform.
  destruct (os_getpgid E (pid p) s) as [g|c msg] eqn:Hg; cbn [lift].
  - match goal with |- context [os_killpg E g SIGTERM ?w] =>
      destruct (os_killpg E g SIGTERM w) as [[]|c msg] eqn:Hk end; cbn [lift].
    + eexists. repeat split; reflexivity.
    + rewrite (kill_errors _ _ Hk). eexists. repeat split; reflexivity.
  - rewrite (lookup_errors _ _ Hg). eexists. repeat split; reflexivity.
Qed.

Lemma fixed_teardown_looks_up_all (l : list Popen) s :
  exists s',
    for_each l (RunProductionFixed.kill_group E) s = (Ok tt, s') /\
    filter is_getpgid (trace s')
    = (rev (map (fun p => CGetpgid (pid p)) l) ++ filter is_getpgid (trace s))%list /\
    processes s' = processes s.
Proof.
  revert s. induction l as [|p l IH]; intros s.
  - now exists s.
  - destruct (fixed_kill_group_looks_up p s) as (s1 & H1 & Ht1 & Hp1).
    destruct (IH s1) as (s' & Hs' & Ht & Hp).
    exists s'. cbn [for_each]. rewrite (@bind_ok _ _ _ _ _ _ _ H1).
    split; [exact Hs'|]. split; [|congruence].
    rewrite Ht, Ht1. cbn [map rev]. now rewrite <- app_assoc.
Qed.
End OSErrors.

(** X13.  The handler of run_production_fixed.py never gives up on a
    child: as long as the lookups and the group kills fail with an
    [OSError] only, it looks up the group of every registered child, once
    and in the order of registration, whatever happened to the children
    before it, leaves the registry as it was and ends with [SystemExit] of
    code 0. *)
Theorem fixed_handler_tries_every_child (E : env) (s : state) :
  (forall q w c msg, os_getpgid E q w = Fails c msg -> is_OSError c = true) ->
  (forall g w c msg, os_killpg E g SIGTERM w = Fails c msg -> is_OSError c = true) ->
  exists s',
    RunProductionFixed.signal_handler E s = (Raise (SystemExit 0), s') /\
    filter is_getpgid (trace s')
    = (rev (map (fun p => CGetpgid (pid p)) (processes s))
       ++ filter is_getpgid (trace s))%list /\
    processes s' = processes s.
Proof.
  intros Hget Hkill.
  destruct (@fixed_teardown_looks_up_all E Hget Hkill (processes s)
              (snd (logger "Stopping all services..." s))) as (s' & Hs' & Ht & Hp).
  exists s'. split; [|split; [exact Ht | exact Hp]].
  unfold RunProductionFixed.signal_handler.
  erewrite bind_ok by reflexivity. erewrite bind_ok by reflexivity.
  cbn [processes logger snd] in *.
  rewrite (@bind_ok _ _ _ _ _ _ _ Hs'). reflexivity.
Qed.

Lemma fixed_handler_tries_every_child_witness :
  exists s',
    RunProductionFixed.signal_handler reaped_child three_running
      = (Raise (SystemExit 0), s') /\
    filter is_getpgid (trace s')
    = (rev (map (fun p => CGetpgid (pid p)) (processes three_running))
       ++ filter is_getpgid (trace three_running))%list /\
    processes s' = processes three_running.
Proof.
  apply (@fixed_handler_tries_every_child reaped_child three_running).
  - intros q w c msg. cbn. destruct (q =? 101); [|discriminate].
    intros H. injection H as <- _. reflexivity.
  - intros g w c msg. discriminate.
Defined.

(** ** The database step of run.py *)

(** X14.  In [setup_database] the removal of the old database file is not
    guarded: when the file exists and [os.remove] fails, that error leaves
    the function as it is (not as [SystemExit]), right after the line that
    announces the removal, and [create_db.py] is never run. *)
Theorem setup_database_remove_failure (E : env) (s : state) (c : exc_class)
    (msg : string) :
  path_exists E "instance/dev.db" s = true ->
  (forall w, os_remove E "instance/dev.db" w = Fails c msg) ->
  exists s',
    Run.setup_database E s = (Raise (PyExc c msg), s') /\
    trace s' = CRemove "instance/dev.db" :: CPathExists "instance/dev.db" :: trace s /\
    stdout s' = "Removing old database file..." :: stdout s.
Proof.
  intros Hfound Hremove.
  unfold Run.setup_database, bind, os_path_exists, remove, perform, print.
  rewrite Hfound. cbn [lift]. rewrite Hremove. cbn [lift].
  eexists. repeat split; reflexivity.
Qed.

Lemma setup_database_remove_failure_witness :
  exists s',
    Run.setup_database locked_db boot
      = (Raise (PyExc PermissionError "[Errno 13] Permission denied"), s') /\
    trace s' = CRemove "instance/dev.db" :: CPathExists "instance/dev.db" :: trace boot /\
    stdout s' = "Removing old database file..." :: stdout boot.
Proof.
  apply (@setup_database_remove_failure locked_db boot).
  - reflexivity.
  - intros w. reflexivity.
Defined.

(** ** The build step of run_production_fixed.py *)

(** X15.  In run_production_fixed.py, when every command succeeds but no
    [dist] directory is there after the build, [build_frontend] raises a
    plain [Exception], which its [except CalledProcessError] does not
    catch: the check of [dist] is the last call, the success line is the
    last one logged, no error is logged and [sys.exit(1)] is not reached. *)
Theorem fixed_build_without_dist_raises (E : env) (s : state) :
  (forall argv w, exists cp, subprocess_run E argv w = Done cp /\ returncode cp = 0) ->
  (forall w, path_exists E "dist" w = false) ->
  exists s',
    RunProductionFixed.build_frontend E s
    = (Raise (PyExc OtherException "Build directory 'dist' not found after build"), s') /\
    hd_error (trace s') = Some (CPathExists "dist") /\
    hd_error (logged s') = Some "Frontend built successfully.".
Proof.
  intros Hrun Hdist.
  assert (Hcheck : forall argv w, exists cp,
            run_check E argv w
            = (Ok cp, after (CRun argv) (Z.of_N (latency E (CRun argv) w)) w)).
  { intros argv w. destruct (Hrun argv w) as (cp & Hcp & Hrc). exists cp.
    unfold run_check, bind, run, perform. rewrite Hcp. cbn [lift]. now rewrite Hrc. }
  unfold RunProductionFixed.build_frontend.
  erewrite bind_ok by reflexivity.
  match goal with |- context [try_except _ _ _ ?w] => set (s0 := w) end.
  assert (Hbody : exists s',
            RunProductionFixed.install_and_build E s0
            = (Raise (PyExc OtherException "Build directory 'dist' not found after build"), s') /\
            hd_error (trace s') = Some (CPathExists "dist") /\
            hd_error (logged s') = Some "Frontend built successfully.").
  { unfold RunProductionFixed.install_and_build.
    unfold bind at 1, os_path_exists at 1, perform at 1. cbn [lift].
    match goal with |- context [if ?b then _ else _] => destruct b end.
    - erewrite bind_ok by reflexivity.
      match goal with |- context [bind (run_check E ?argv) _ ?w] =>
        destruct (Hcheck argv w) as (cp & Hcp); rewrite (@bind_ok _ _ _ _ _ _ _ Hcp) end.
      erewrite bind_ok by reflexivity.
      unfold bind, os_path_exists, perform. rewrite Hdist. cbn [lift].
      eexists. repeat split; reflexivity.
    - match goal with |- context [bind (bind (logger ?l) _) _ ?w] =>
        destruct (Hcheck ["npm"; "install"] (snd (logger l w))) as (cp0 & Hcp0) end.
      unfold bind at 1. unfold bind at 1. cbn [logger].
      cbn [logger snd] in Hcp0. unfold bind at 1. rewrite Hcp0. cbn [ret].
      match goal with |- context [bind (run_check E ?argv) _ ?w] =>
        destruct (Hcheck argv w) as (cp & Hcp); rewrite (@bind_ok _ _ _ _ _ _ _ Hcp) end.
      erewrite bind_ok by reflexivity.
      unfold bind, os_path_exists, perform. rewrite Hdist. cbn [lift].
      eexists. repeat split; reflexivity. }
  destruct Hbody as (s' & Hs' & Ht & Hl).
  exists s'. split; [|split; [exact Ht | exact Hl]].
  unfold try_except. rewrite Hs'. reflexivity.
Qed.

Lemma fixed_build_without_dist_raises_witness :
  exists s',
    RunProductionFixed.build_frontend no_dist boot
    = (Raise (PyExc OtherException "Build directory 'dist' not found after build"), s') /\
    hd_error (trace s') = Some (CPathExists "dist") /\
    hd_error (logged s') = Some "Frontend built successfully.".
Proof.
  apply (@fixed_build_without_dist_raises no_dist boot).
  - intros argv w. eexists. split; reflexivity.
  - intros w. reflexivity.
Defined.

Ltac solve_emits_by tac :=
  repeat first
    [ apply emits_bind; [| intros ?]
    | apply emits_try_except; [| intros ?]
    | apply emits_for_each; intros ?
    | apply emits_ret | apply emits_raise | apply emits_print | apply emits_logger
    | apply emits_time | apply emits_read | apply emits_append
    | apply emits_perform; solve [tac]
    | apply emits_sleep; solve [tac]
    | match goal with
      | |- emits _ (match ?x with _ => _ end) => destruct x
      | |- emits _ (if ?x then _ else _) => destruct x
      end ].

(** When [m] always returns [a], what follows is [k a]. *)
Lemma emits_bind_value {A B} (P : call -> Prop) (m : M A) (k : A -> M B) (a : A) :
  (forall s, exists s1, m s = (Ok a, s1) /\ extends P s s1) ->
  emits P (k a) -> emits P (bind m k).
Proof.
  intros Hm Hk s. destruct (Hm s) as (s1 & H1 & Hext).
  rewrite (@bind_ok _ _ _ _ _ _ _ H1).
  eapply extends_trans; [exact Hext | apply Hk].
Qed.

Lemma called_process_error_bind_l {A B} (m : M A) (k : A -> M B) :
  (forall w, exists msg s1, m w = (Raise (PyExc CalledProcessError msg), s1)) ->
  forall w, exists msg s1, bind m k w = (Raise (PyExc CalledProcessError msg), s1).
Proof.
  intros Hm w. destruct (Hm w) as (msg & s1 & H). exists msg, s1. now apply bind_raise.
Qed.

Lemma called_process_error_bind_r {A B} (m : M A) (k : A -> M B) :
  (forall w, (exists a s1, m w = (Ok a, s1)) \/
             (exists msg s1, m w = (Raise (PyExc CalledProcessError msg), s1))) ->
  (forall a w, exists msg s1, k a w = (Raise (PyExc CalledProcessError msg), s1)) ->
  forall w, exists msg s1, bind m k w = (Raise (PyExc CalledProcessError msg), s1).
Proof.
  intros Hm Hk w. destruct (Hm w) as [(a & s1 & H)|(msg & s1 & H)].
  - rewrite (@bind_ok _ _ _ _ _ _ _ H). apply Hk.
  - exists msg, s1. now apply bind_raise.
Qed.

(** X16.  In run_production_fixed.py, when the commands can be run and the
    frontend build ends with a non-zero status, [build_frontend] logs the
    error and ends with [SystemExit] of code 1, whether [node_modules] was
    there or had to be installed first. *)
Theorem fixed_build_failure_exits_1 (E : env) (s : state) :
  (forall argv w, exists cp, subprocess_run E argv w = Done cp) ->
  (forall w cp, subprocess_run E ["npm"; "run"; "build"] w = Done cp ->
                returncode cp <> 0) ->
  exists s' msg,
    RunProductionFixed.build_frontend E s = (Raise (SystemExit 1), s') /\
    hd_error (logged s') = Some ("Error building frontend: " ++ msg).
Proof.
  intros Hrun Hbuild.
  assert (Hcheck : forall argv w,
            (exists cp s1, run_check E argv w = (Ok cp, s1)) \/
            (exists msg s1, run_check E argv w
               = (Raise (PyExc CalledProcessError msg), s1))).
  { intros argv w. destruct (Hrun argv w) as (cp & Hcp).
    unfold run_check, bind, run, perform. rewrite Hcp. cbn [lift].
    destruct (returncode cp =? 0); [left | right]; eexists _, _; reflexivity. }
  assert (Hfail : forall w, exists msg s1, run_check E ["npm"; "run"; "build"] w
            = (Raise (PyExc CalledProcessError msg), s1)).
  { intros w. destruct (Hrun ["npm"; "run"; "build"] w) as (cp & Hcp).
    unfold run_check, bind, run, perform. rewrite Hcp. cbn [lift].
    destruct (Z.eqb_spec (returncode cp) 0) as [H0|_];
      [now apply Hbuild in Hcp | eexists _, _; reflexivity]. }
  assert (Hbody : forall w, exists msg s1,
            RunProductionFixed.install_and_build E w
            = (Raise (PyExc CalledProcessError msg), s1)).
  { unfold RunProductionFixed.install_and_build.
    apply called_process_error_bind_r.
    - intros w. left. eexists _, _. reflexivity.
    - intros found. apply called_process_error_bind_r.
      + destruct found.
        * intros w. left. eexists _, _. reflexivity.
        * intros w.
          destruct (Hcheck ["npm"; "install"]
                      (snd (logger "Installing frontend dependencies..." w)))
            as [(cp & s1 & H)|(msg & s1 & H)].
          -- left. erewrite bind_ok by reflexivity.
             rewrite (@bind_ok _ _ _ _ _ _ _ H). eexists _, _. reflexivity.
          -- right. exists msg, s1. erewrite bind_ok by reflexivity.
             now apply bind_raise.
      + intros _. apply called_process_error_bind_l. exact Hfail. }
  unfold RunProductionFixed.build_frontend.
  erewrite bind_ok by reflexivity.
  match goal with |- context [try_except _ _ _ ?w] =>
    destruct (Hbody w) as (msg & s1 & Hs1) end.
  erewrite try_caught by (exact Hs1 || reflexivity).
  eexists _, msg. split; reflexivity.
Qed.

Lemma fixed_build_failure_exits_1_witness :
  exists s' msg,
    RunProductionFixed.build_frontend broken_build boot = (Raise (SystemExit 1), s') /\
    hd_error (logged s') = Some ("Error building frontend: " ++ msg).
Proof.
  apply (@fixed_build_failure_exits_1 broken_build boot).
  - intros argv w. cbn. destruct (list_eq_dec _ _ _); eexists; reflexivity.
  - intros w cp. cbn. intros H. injection H as <-. discriminate.
Defined.

Lemma try_except_extends {A} (m : M A) handles h s :
  (forall e, emits (fun _ => True) (h e)) ->
  extends (fun _ => True) (snd (m s)) (snd (try_except m handles h s)).
Proof.
  intros Hh. unfold try_except. destruct (m s) as [[a|e] s1]; cbn [snd].
  - apply extends_refl.
  - destruct (handles e); [apply Hh | apply extends_refl].
Qed.

(** X17.  In run_production_fixed.py [build_frontend] installs the node
    packages only when they are missing: while [node_modules] exists,
    [npm install] is never run, whatever else happens; while it does not,
    the check of [node_modules] and [npm install] are the first two calls
    made. *)
Theorem fixed_build_installs_only_when_missing (E : env) (s : state) :
  ((forall w, path_exists E "node_modules" w = true) ->
   exists calls,
     trace (snd (RunProductionFixed.build_frontend E s)) = (calls ++ trace s)%list /\
     ~ In (CRun ["npm"; "install"]) calls) /\
  ((forall w, path_exists E "node_modules" w = false) ->
   exists calls,
     trace (snd (RunProductionFixed.build_frontend E s))
     = (calls ++ [CRun ["npm"; "install"]; CPathExists "node_modules"] ++ trace s)%list).
Proof.
  split; intros Hnm.
  - assert (Hemits : emits (fun c => c <> CRun ["npm"; "install"])
                       (RunProductionFixed.build_frontend E)).
    { unfold RunProductionFixed.build_frontend.
      apply emits_bind; [apply emits_logger | intros _].
      apply emits_try_except; [|intros e; unfold sys_exit; solve_emits].
      unfold RunProductionFixed.install_and_build.
      apply emits_bind_value with (a := true).
      - intros w. eexists. split.
        + unfold os_path_exists, perform. rewrite Hnm. reflexivity.
        + apply extends_after. discriminate.
      - unfold run_check, run, os_path_exists. solve_emits_by discriminate. }
    destruct (Hemits s) as (calls & Ht & Fcalls). exists calls. split; [exact Ht|].
    intros Hin. rewrite Forall_forall in Fcalls. now apply (Fcalls _ Hin).
  - unfold RunProductionFixed.build_frontend.
    erewrite bind_ok by reflexivity.
    match goal with |- context [try_except _ _ _ ?w] => set (s0 := w) end.
    assert (Hbody : exists l,
              trace (snd (RunProductionFixed.install_and_build E s0))
              = (l ++ [CRun ["npm"; "install"]; CPathExists "node_modules"] ++ trace s)%list).
    { unfold RunProductionFixed.install_and_build.
      assert (H1 : os_path_exists E "node_modules" s0
                   = (Ok false, after (CPathExists "node_modules")
                                  (Z.of_N (latency E (CPathExists "node_modules") s0)) s0)).
      { unfold os_path_exists, perform. rewrite Hnm. reflexivity. }
      rewrite (@bind_ok _ _ _ _ _ _ _ H1). cbn beta iota.
      set (s1 := after (CPathExists "node_modules")
                   (Z.of_N (latency E (CPathExists "node_modules") s0)) s0).
      assert (H2 : exists r s2,
                (logger "Installing frontend dependencies..." ;;
                 run_check E ["npm"; "install"] ;; ret tt) s1 = (r, s2) /\
                trace s2 = CRun ["npm"; "install"] :: trace s1).
      { unfold bind, logger, run_check, run, perform, bind.
        destruct (subprocess_run E ["npm"; "install"] _) as [cp|c msg]; cbn [lift];
          [destruct (returncode cp =? 0)|]; eexists _, _; split; reflexivity. }
      destruct H2 as ([[]|e] & s2 & H2 & Ht2).
      - rewrite (@bind_ok _ _ _ _ _ _ _ H2).
        assert (Hrest : emits (fun _ : call => True)
                  (run_check E ["npm"; "run"; "build"] ;;
                   logger "Frontend built successfully." ;;
                   built <- os_path_exists E "dist" ;;
                   if built : bool then ret tt
                   else raise (PyExc OtherException
                                 "Build directory 'dist' not found after build"))).
        { unfold run_check, run, os_path_exists. solve_emits. }
        destruct (Hrest s2) as (l & Hl & _). exists l. rewrite Hl, Ht2. reflexivity.
      - erewrite bind_raise by exact H2. exists []. cbn [snd app]. rewrite Ht2. reflexivity. }
    destruct Hbody as (l & Hl).
    match goal with |- context [try_except ?m ?handles ?h s0] =>
      destruct (@try_except_extends unit m handles h s0) as (l2 & Hl2 & _)
    end.
    + intros e. unfold sys_exit. solve_emits.
    + exists (l2 ++ l)%list. rewrite Hl2, Hl, <- app_assoc. reflexivity.
Qed.

Lemma fixed_build_installs_only_when_missing_witness :
  exists calls,
    trace (snd (RunProductionFixed.build_frontend no_dist boot)) = (calls ++ trace boot)%list /\
    ~ In (CRun ["npm"; "install"]) calls.
Proof.
  apply (@fixed_build_installs_only_when_missing no_dist boot).
  intros w. reflexivity.
Defined.

(** ** The order of the launches *)

Lemma emits_weaken {A} (P Q : call -> Prop) (m : M A) :
  (forall c, P c -> Q c) -> emits P m -> emits Q m.
Proof.
  intros HPQ Hm s. destruct (Hm s) as (l & Ht & F). exists l. split; [exact Ht|].
  eapply Forall_impl; [exact HPQ | exact F].
Qed.

Lemma filter_all_same (p : call -> bool) (x : call) (l : list call) :
  Forall (fun c => p c = true -> c = x) l ->
  filter p l = repeat x (List.length (filter p l)).
Proof.
  intros F. induction F as [|c l Hc _ IH]; cbn [filter]; [reflexivity|].
  destruct (p c) eqn:Hp; [|exact IH].
  cbn [List.length repeat]. rewrite <- IH, (Hc eq_refl). reflexivity.
Qed.

(** What follows the launcher in one launch spawns nothing. *)
Lemma after_start_spawns_nothing E svc (r : option Popen) :
  emits (fun c => is_popen c = false)
    (match r with
     | Some pro =>
         processes_append pro ;;
         (if existsb (String.eqb (name svc)) ["journal_service"]
          then Run.wait_for_service E (port svc) (name svc) 30 ;; ret tt
          else ret tt)
     | None =>
         print ("Critical service " ++ name svc
                ++ " failed to start. Continuing with other services...")
     end).
Proof.
  destruct r as [pro|]; [|solve_emits].
  apply emits_bind; [apply emits_append | intros _].
  destruct (existsb _ _); [|apply emits_ret].
  apply emits_bind; [|intros r; apply emits_ret].
  unfold Run.wait_for_service, Run.wait_for_service_fuel.
  apply emits_bind; [apply emits_print | intros _].
  apply emits_bind; [apply emits_time | intros start_time].
  apply emits_bind; [|intros r; solve_emits].
  eapply emits_weaken; [|apply wait_loop_only_polls].
  intros c [-> | ->]; reflexivity.
Qed.

(** The only commands a launch spawns are copies of its own. *)
Lemma launch_spawns_its_own_command E svc :
  emits (fun c => is_popen c = true -> c = CPopen (command svc) (cwd svc))
    (Run.launch E svc).
Proof.
  assert (Hattempts : forall left,
            emits (fun c => is_popen c = true -> c = CPopen (command svc) (cwd svc))
              (Run.attempts E svc 3 left)).
  { induction left as [|attempt rest IH]; cbn [Run.attempts].
    - apply emits_ret.
    - unfold Run.attempt_start, popen, poll, communicate.
      solve_emits_by ltac:(cbn; intros; (reflexivity || discriminate)). exact IH. }
  unfold Run.launch, Run.start_service_with_retry.
  apply emits_bind.
  - apply emits_bind; [apply Hattempts | intros [pro|]; solve_emits].
  - intros r. eapply emits_weaken; [|apply after_start_spawns_nothing].
    intros c Hc Hpopen. congruence.
Qed.

(** One launch spawns its command one to three times. *)
Lemma launch_spawns_one_to_three E svc s :
  exists s' k,
    Run.launch E svc s = (Ok tt, s') /\
    (1 <= k <= 3)%nat /\
    filter is_popen (trace s')
    = (repeat (CPopen (command svc) (cwd svc)) k ++ filter is_popen (trace s))%list.
Proof.
  destruct (launch_returns E svc s) as (s' & Hs').
  pose proof (launch_spawns_its_own_command E svc s) as (l & Ht & F).
  rewrite Hs' in Ht. cbn [snd] in Ht.
  exists s', (List.length (filter is_popen l)). split; [exact Hs'|].
  split; [|rewrite Ht, filter_app; f_equal; now apply filter_all_same].
  assert (Hcount : count is_popen s' = count is_popen s
                   + Z.of_nat (List.length (filter is_popen l))).
  { unfold count. rewrite Ht, filter_app, length_app. lia. }
  destruct (@attempts_budget E svc 3 3 0 s eq_refl)
    as (r & s1 & d & Hs1 & Hd & Hd1 & _ & Hp & _).
  change (map Z.of_nat (seq 0 3)) with (range 3) in Hs1.
  assert (Hstart : exists s2, Run.start_service_with_retry E svc 3 s = (Ok r, s2) /\
                              count is_popen s2 = count is_popen s + d).
  { unfold Run.start_service_with_retry. rewrite (@bind_ok _ _ _ _ _ _ _ Hs1).
    destruct r; eexists; (split; [reflexivity|]); exact Hp. }
  destruct Hstart as (s2 & Hstart & Hp2).
  assert (Htail : count is_popen s' = count is_popen s2).
  { apply extends_count.
    unfold Run.launch in Hs'. rewrite (@bind_ok _ _ _ _ _ _ _ Hstart) in Hs'.
    pose proof (after_start_spawns_nothing E svc r s2) as Hk.
    rewrite Hs' in Hk. exact Hk. }
  assert (1 <= d) by (apply Hd1; lia).
  lia.
Qed.

(** X18.  The services are launched strictly in the declared order: the
    spawns made by the launch loop are, in time order, between one and three
    copies of the command of the first descriptor, then between one and
    three of the second, and so on, whatever fails on the way. *)
Theorem launches_follow_the_declared_order (E : env) (svcs : list service) (s : state) :
  exists s' counts,
    Run.launch_all E svcs s = (Ok tt, s') /\
    List.length counts = List.length svcs /\
    Forall (fun k => (1 <= k <= 3)%nat) counts /\
    rev (filter is_popen (trace s'))
    = (rev (filter is_popen (trace s))
       ++ flat_map (fun sk => repeat (CPopen (command (fst sk)) (cwd (fst sk))) (snd sk))
            (combine svcs counts))%list.
Proof.
  unfold Run.launch_all. revert s.
  induction svcs as [|svc rest IH]; intros s.
  - exists s, []. cbn [for_each combine flat_map]. rewrite app_nil_r.
    repeat split. constructor.
  - destruct (launch_spawns_one_to_three E svc s) as (s1 & k & H1 & Hk & Ht1).
    destruct (IH s1) as (s' & counts & Hs' & Hlen & Hall & Ht).
    exists s', (k :: counts). cbn [for_each]. rewrite (@bind_ok _ _ _ _ _ _ _ H1).
    split; [exact Hs'|]. split; [cbn [List.length]; lia|].
    split; [now constructor|].
    rewrite Ht, Ht1, rev_app_distr, rev_repeat.
    cbn [combine flat_map fst snd]. now rewrite <- app_assoc.
Qed.

(** ** The whole run *)

(** The report loop in any world: one status line per descriptor. *)
Lemma report_loop_total E svcs (i : nat) s :
  exists s' ups,
    for_each (Run.enumerate i svcs) (Run.report E) s = (Ok tt, s') /\
    List.length ups = List.length svcs /\
    stdout s' = (rev (map (fun entry => status_line (fst entry) (snd entry))
                        (combine ups svcs)) ++ stdout s)%list.
Proof.
  revert i s. induction svcs as [|svc rest IH]; intros i s.
  - exists s, []. repeat split.
  - cbn [Run.enumerate for_each].
    assert (Hone : exists s1 up,
      Run.report E (i, svc) s = (Ok tt, s1) /\
      stdout s1 = status_line up svc :: stdout s).
    { unfold Run.report, Run.running_at, bind, read_processes, poll, perform, status_line.
      destruct (nth_error (processes s) i) as [pro|]; cbn [lift ret].
      - destruct (popen_poll E (pid pro) s);
          [eexists _, false | eexists _, true]; split; reflexivity.
      - eexists _, false. split; reflexivity. }
    destruct Hone as (s1 & up & H1 & Hout1).
    destruct (IH (S i) s1) as (s' & ups & Hs' & Hlen & Hout).
    exists s', (up :: ups). rewrite (@bind_ok _ _ _ _ _ _ _ H1).
    split; [exact Hs'|]. split; [cbn [List.length]; lia|].
    rewrite Hout, Hout1. cbn [combine map rev fst snd]. now rewrite <- app_assoc.
Qed.

(** X19.  Once the reaping and the three pre-flight steps have gone
    through, nothing can abort the run any more: whatever the services do,
    the launch loop ends, and the script prints its two header lines and
    exactly one status line per descriptor, in the order of the
    descriptors, and reaches its idle loop. *)
Theorem run_completes_after_preflight (E : env) (svcs : list service) (s s2 : state) :
  (Run.reap_ports E ;; Run.preflight E) s = (Ok tt, s2) ->
  exists s3 s' ups,
    Run.launch_all E svcs s2 = (Ok tt, s3) /\
    Run.supervise E svcs s = (Ok tt, s') /\
    List.length ups = List.length svcs /\
    stdout s' = (rev (map (fun entry => status_line (fst entry) (snd entry))
                        (combine ups svcs))
                 ++ ["Services status:"; "All services started."] ++ stdout s3)%list.
Proof.
  intros Hpre.
  destruct (launch_all_attempts_each E svcs s2) as (s3 & Hs3 & _).
  destruct (report_loop_total E svcs 0
              (snd (print "Services status:" (snd (print "All services started." s3)))))
    as (s' & ups & Hs' & Hlen & Hout).
  exists s3, s', ups. split; [exact Hs3|]. split; [|split; [exact Hlen | exact Hout]].
  unfold Run.supervise.
  destruct (reap_ports_returns E s) as (s1 & H1).
  rewrite (@bind_ok _ _ _ _ _ _ _ H1) in Hpre.
  rewrite (@bind_ok _ _ _ _ _ _ _ H1).
  rewrite (@bind_ok _ _ _ _ _ _ _ Hpre).
  rewrite (@bind_ok _ _ _ _ _ _ _ Hs3).
  unfold Run.report_status.
  erewrite bind_ok by reflexivity. erewrite bind_ok by reflexivity.
  exact Hs'.
Qed.

Lemma run_completes_after_preflight_witness :
  exists s3 s' ups,
    Run.launch_all quiet Run.services
      (snd ((Run.reap_ports quiet ;; Run.preflight quiet) boot)) = (Ok tt, s3) /\
    Run.supervise quiet Run.services boot = (Ok tt, s') /\
    List.length ups = List.length Run.services /\
    stdout s' = (rev (map (fun entry => status_line (fst entry) (snd entry))
                        (combine ups Run.services))
                 ++ ["Services status:"; "All services started."] ++ stdout s3)%list.
Proof.
  apply (@run_completes_after_preflight quiet Run.services boot).
  reflexivity.
Defined.
